(** * rainman/helpers/decorators.py: the [crossdomain] decorator

    A shallow embedding of the CORS decorator for Flask view functions and
    the properties of its specification.

    The embedding follows the three times at which the Python code runs:

    - configuration time, [crossdomain(...)]: the arguments are normalised
      into the strings the closure keeps ([Config]);
    - decoration time, [decorator(f)]: the view function object is marked
      and wrapped ([Decoration]);
    - request time, [wrapped_function]: a program over the
      operations of the framework ([Wrapper]), run against a store of
      response objects. *)

From Stdlib Require Import ZArith Lia Bool Ascii String List.
From Stdlib Require Import Sorting.Sorted Sorting.Permutation.
From Stdlib Require Import Floats.SpecFloat DecimalString.
From Stdlib Require DecimalZ.
From stdpp Require Import base option list sorting strings gmap.

Local Open Scope string_scope.
Local Open Scope Z_scope.

(** ** Python values *)

(** The exceptions the decorator can meet. *)
Inductive exn : Type :=
| TypeError
| AttributeError
| KeyError
| InvalidReference
| ViewError (msg : string).

Inductive result (A : Type) : Type :=
| Ok (a : A)
| Raise (e : exn).
Arguments Ok {A} a.
Arguments Raise {A} e.

Definition rbind {A B} (r : result A) (k : A -> result B) : result B :=
  match r with
  | Ok a => k a
  | Raise e => Raise e
  end.

Declare Scope result_scope.
Delimit Scope result_scope with result.
Notation "x <- r ;; k" := (rbind r (fun x => k))
  (at level 100, r at next level, right associativity) : result_scope.

(** [datetime.timedelta], normalised as Python keeps it:
    [0 <= seconds < 86400] and [0 <= microseconds < 10^6]. *)
Record timedelta : Type := Timedelta {
  days : Z;
  seconds : Z;
  microseconds : Z
}.

(** The values a caller can pass for [origin], [methods] and [headers]:
    [None], a byte string ([basestring]), a sequence (list or tuple), or
    something that is neither a string nor iterable (a number, a boolean).
    Booleans are also what [provide_automatic_options] holds. *)
#[warnings="-register-all"]
Inductive pyval : Type :=
| PyNone
| PyBool (b : bool)
| PyInt (z : Z)
| PyStr (s : string)
| PyList (l : list pyval).

(** [max_age] is an integer number of seconds or a [timedelta]; after
    normalisation it is an integer or a float. *)
Inductive max_age_arg : Type :=
| MaxAgeInt (z : Z)
| MaxAgeDelta (td : timedelta).

Inductive number : Type :=
| NumInt (z : Z)
| NumFloat (f : spec_float).

(** ** String operations *)

Module Str.

(** [str.upper()] on a byte string in the C locale: [a]..[z] only. *)
Definition upper_ascii (c : ascii) : ascii :=
  let n := nat_of_ascii c in
  if ((97 <=? n) && (n <=? 122))%nat then ascii_of_nat (n - 32) else c.

Fixpoint upper (s : string) : string :=
  match s with
  | EmptyString => EmptyString
  | String c s' => String (upper_ascii c) (upper s')
  end.

Definition lower_ascii (c : ascii) : ascii :=
  let n := nat_of_ascii c in
  if ((65 <=? n) && (n <=? 90))%nat then ascii_of_nat (n + 32) else c.

Fixpoint lower (s : string) : string :=
  match s with
  | EmptyString => EmptyString
  | String c s' => String (lower_ascii c) (lower s')
  end.

(** [sep.join(l)] on strings. *)
Fixpoint join (sep : string) (l : list string) : string :=
  match l with
  | [] => ""
  | [x] => x
  | x :: l' => x ++ sep ++ join sep l'
  end.

(** Iterating a string yields its one-character strings. *)
Fixpoint chars (s : string) : list string :=
  match s with
  | EmptyString => []
  | String c s' => String c EmptyString :: chars s'
  end.

(** The order of [str] comparison: bytewise lexicographic. *)
Definition le (s1 s2 : string) : Prop := String.leb s1 s2 = true.

#[global] Instance le_dec s1 s2 : Decision (le s1 s2).
Proof. unfold le. apply _. Defined.

(** [sorted(l)] on strings. *)
Definition sorted (l : list string) : list string := merge_sort le l.

End Str.

(** ** Floats

    [timedelta.total_seconds()] is a float, and [str] of a float is what
    the response header gets. Floats are IEEE 754 binary64 values. *)

Module PyFloat.

Definition prec : Z := 53.
Definition emax : Z := 1024.

(** [a / b] for integers under true division: the exact quotient, rounded
    once to the nearest binary64 (ties to even). *)
Definition true_divide (a : Z) (b : positive) : spec_float :=
  match a with
  | Z0 => S754_zero false
  | Zpos pa =>
      SFdiv prec emax (S754_finite false pa 0) (S754_finite false b 0)
  | Zneg pa =>
      SFdiv prec emax (S754_finite true pa 0) (S754_finite false b 0)
  end.

(** The decimal digits of a positive integer. *)
Definition digits_of (p : positive) : string :=
  NilZero.string_of_uint (Pos.to_uint p).

Definition zeros (n : Z) : string :=
  string_of_list_ascii (repeat "0"%char (Z.to_nat n)).

(** The position of the decimal point of [n/d]: the [k] with
    [10^(k-1) <= n/d < 10^k]. *)
Fixpoint leading_zeros (fuel : nat) (n d : Z) (j : Z) : Z :=
  match fuel with
  | O => j
  | S fuel' =>
      if d <=? n * 10 ^ j then j else leading_zeros fuel' n d (j + 1)
  end.

Definition decpt_of (n d : positive) : Z :=
  if (Z.pos d <=? Z.pos n) then
    match Z.pos n / Z.pos d with
    | Zpos q => Z.of_nat (String.length (digits_of q))
    | _ => 0
    end
  else
    1 - leading_zeros (S (Z.to_nat (Z.log2 (Z.pos d)))) (Z.pos n) (Z.pos d) 1.

(** Rounding [n/d] to the nearest integer, ties to even. *)
Definition round_half_even (n d : Z) : Z :=
  let q := n / d in
  let r := n mod d in
  match 2 * r ?= d with
  | Lt => q
  | Gt => q + 1
  | Eq => if Z.even q then q else q + 1
  end.

Fixpoint strip_zeros (fuel : nat) (q : Z) : Z :=
  match fuel with
  | O => q
  | S fuel' => if q mod 10 =? 0 then strip_zeros fuel' (q / 10) else q
  end.

(** The digits of [n/d] correctly rounded to [ndigits] significant
    decimal digits, trailing zeros removed, with the position of the
    decimal point (what [_Py_dg_dtoa] in mode 2 returns). *)
Definition dtoa (ndigits : Z) (n d : positive) : string * Z :=
  let k := decpt_of n d in
  let sh := ndigits - k in
  let q :=
    if 0 <=? sh then round_half_even (Z.pos n * 10 ^ sh) (Z.pos d)
    else round_half_even (Z.pos n) (Z.pos d * 10 ^ (- sh)) in
  let '(q, k) := if q =? 10 ^ ndigits then (1, k + 1) else (q, k) in
  match strip_zeros (Z.to_nat ndigits) q with
  | Zpos p => (digits_of p, k)
  | _ => ("0", 1)
  end.

(** The exponent as [%+.02d] prints it. *)
Definition exponent (e : Z) : string :=
  let ds := match Z.abs e with Zpos p => digits_of p | _ => "0" end in
  (if e <? 0 then "-" else "+") ++
  (if (String.length ds <? 2)%nat then "0" ++ ds else ds).

(** [format_float_short] for the format code [g] with
    [Py_DTSF_ADD_DOT_0]: exponent notation when the decimal point is at
    most [-4] or beyond [precision - 1], else positional notation that
    always shows a fractional part. *)
Definition format_digits (precision : Z) (ds : string) (decpt : Z) : string :=
  let len := Z.of_nat (String.length ds) in
  if (decpt <=? -4) || (precision - 1 <? decpt) then
    substring 0 1 ds ++
    (if 1 <? len then "." ++ substring 1 (String.length ds - 1) ds else "") ++
    "e" ++ exponent (decpt - 1)
  else if decpt <=? 0 then
    "0." ++ zeros (- decpt) ++ ds
  else if decpt <? len then
    substring 0 (Z.to_nat decpt) ds ++ "." ++
    substring (Z.to_nat decpt) (String.length ds - Z.to_nat decpt) ds
  else
    ds ++ zeros (decpt - len) ++ ".0".

(** [str(x)] for a float [x]: twelve significant digits. *)
Definition str (x : spec_float) : string :=
  match x with
  | S754_zero s => (if s then "-" else "") ++ "0.0"
  | S754_infinity s => (if s then "-" else "") ++ "inf"
  | S754_nan => "nan"
  | S754_finite s m e =>
      let '(n, d) :=
        match e with
        | Zpos pe => (m * 2 ^ pe, 1)%positive
        | Z0 => (m, 1%positive)
        | Zneg pe => (m, 2 ^ pe)%positive
        end in
      let '(ds, decpt) := dtoa 12 n d in
      (if s then "-" else "") ++ format_digits 12 ds decpt
  end.

End PyFloat.

(** [str(n)] for an integer. *)
Definition str_int (z : Z) : string := NilZero.string_of_int (Z.to_int z).

(** [td.total_seconds()]. *)
Definition total_seconds (td : timedelta) : spec_float :=
  PyFloat.true_divide
    (microseconds td + (seconds td + days td * 24 * 3600) * 10 ^ 6)
    (10 ^ 6)%positive.

(** [str(max_age)] as the wrapper calls it. *)
Definition str_number (x : number) : string :=
  match x with
  | NumInt z => str_int z
  | NumFloat f => PyFloat.str f
  end.

(** ** Configuration time: [crossdomain(...)] *)

(** What the closure keeps of the arguments of [crossdomain]: the local
    variables [origin], [methods], [headers], [max_age], [attach_to_all]
    and [automatic_options] after the four normalising statements. *)
Record policy : Type := Policy {
  origin : string;
  methods : option string;
  headers : option string;
  max_age : number;
  attach_to_all : bool;
  automatic_options : bool
}.

Module Config.

Local Open Scope result_scope.

(** [iter(v)]: a string yields its characters, a sequence its items,
    anything else is not iterable. *)
Definition iter (v : pyval) : result (list pyval) :=
  match v with
  | PyStr s => Ok (map PyStr (Str.chars s))
  | PyList l => Ok l
  | PyNone | PyBool _ | PyInt _ => Raise TypeError
  end.

(** [x.upper()]: only strings have the method. *)
Definition upper (x : pyval) : result string :=
  match x with
  | PyStr s => Ok (Str.upper s)
  | _ => Raise AttributeError
  end.

(** The item check of [str.join]. *)
Definition item (x : pyval) : result string :=
  match x with
  | PyStr s => Ok s
  | _ => Raise TypeError
  end.

Fixpoint each {A B} (f : A -> result B) (l : list A) : result (list B) :=
  match l with
  | [] => Ok []
  | x :: l' => y <- f x ;; ys <- each f l' ;; Ok (y :: ys)
  end.

(** [', '.join(sorted(x.upper() for x in methods))]: the generator is
    made over [iter(methods)], [sorted] runs it, [join] joins. *)
Definition join_sorted_upper (v : pyval) : result string :=
  xs <- iter v ;;
  us <- each upper xs ;;
  Ok (Str.join ", " (Str.sorted us)).

(** [', '.join(x.upper() for x in headers)] *)
Definition join_upper (v : pyval) : result string :=
  xs <- iter v ;;
  us <- each upper xs ;;
  Ok (Str.join ", " us).

(** [', '.join(origin)] *)
Definition join (v : pyval) : result string :=
  xs <- iter v ;;
  ss <- each item xs ;;
  Ok (Str.join ", " ss).

(** [isinstance(v, basestring)] *)
Definition is_basestring (v : pyval) : bool :=
  match v with
  | PyStr _ => true
  | _ => false
  end.

Definition is_none (v : pyval) : bool :=
  match v with
  | PyNone => true
  | _ => false
  end.

(** [if methods is not None:
       methods = ', '.join(sorted(x.upper() for x in methods))] *)
Definition normalise_methods (methods : pyval) : result (option string) :=
  if negb (is_none methods) then
    m <- join_sorted_upper methods ;; Ok (Some m)
  else Ok None.

(** [if headers is not None and not isinstance(headers, basestring):
       headers = ', '.join(x.upper() for x in headers)] *)
Definition normalise_headers (headers : pyval) : result (option string) :=
  if negb (is_none headers) && negb (is_basestring headers) then
    h <- join_upper headers ;; Ok (Some h)
  else
    match headers with
    | PyStr s => Ok (Some s)
    | _ => Ok None
    end.

(** [if not isinstance(origin, basestring):
       origin = ', '.join(origin)] *)
Definition normalise_origin (origin : pyval) : result string :=
  if negb (is_basestring origin) then join origin
  else
    match origin with
    | PyStr s => Ok s
    | _ => Raise TypeError
    end.

(** [if isinstance(max_age, timedelta):
       max_age = max_age.total_seconds()] *)
Definition normalise_max_age (max_age : max_age_arg) : number :=
  match max_age with
  | MaxAgeDelta td => NumFloat (total_seconds td)
  | MaxAgeInt z => NumInt z
  end.

(** The body of [crossdomain] up to the definition of the closures:
    the four statements in the order of the source, so that the first
    failing one decides the exception. *)
Definition crossdomain (origin methods headers : pyval)
    (max_age : max_age_arg) (attach_to_all automatic_options : bool)
    : result policy :=
  methods <- normalise_methods methods ;;
  headers <- normalise_headers headers ;;
  origin <- normalise_origin origin ;;
  let max_age := normalise_max_age max_age in
  Ok (Policy origin methods headers max_age attach_to_all automatic_options).

(** The defaults of the signature. *)
Definition default_origin : pyval := PyNone.
Definition default_methods : pyval := PyNone.
Definition default_headers : pyval := PyNone.
Definition default_max_age : max_age_arg := MaxAgeInt 21600.
Definition default_attach_to_all : bool := true.
Definition default_automatic_options : bool := true.

End Config.

(** ** The framework's objects *)

(** The header mapping of a response (werkzeug's [Headers]): an ordered
    list of pairs whose keys compare without regard to case. *)
Module Headers.

Definition t : Type := list (string * string).

Definition same_key (k1 k2 : string) : bool :=
  String.eqb (Str.lower k1) (Str.lower k2).

(** [h[key]]: the first value under the key, [None] for [KeyError]. *)
Fixpoint get (h : t) (key : string) : option string :=
  match h with
  | [] => None
  | (k, v) :: h' => if same_key k key then Some v else get h' key
  end.

(** The entries under other keys. *)
Fixpoint remove (h : t) (key : string) : t :=
  match h with
  | [] => []
  | (k, v) :: h' =>
      if same_key k key then remove h' key else (k, v) :: remove h' key
  end.

(** [h[key] = value]: the first entry under the key is replaced and
    the later ones are dropped; a new key is appended. *)
Fixpoint set (h : t) (key value : string) : t :=
  match h with
  | [] => [(key, value)]
  | (k, v) :: h' =>
      if same_key k key then (key, value) :: remove h' key
      else (k, v) :: set h' key value
  end.

End Headers.

Module Response.

Record t : Type := Make {
  status : Z;
  data : string;
  headers : Headers.t
}.

Definition set_header (r : t) (key value : string) : t :=
  Make (status r) (data r) (Headers.set (headers r) key value).

End Response.

(** Response objects live in a store and are passed by reference: the
    wrapper mutates the headers of the object it was given and returns
    that object. *)
Abbreviation loc := nat (only parsing).
Abbreviation store := (list Response.t) (only parsing).

(** ** Request time: [wrapped_function] *)

Section Wrapper.

(** The positional and keyword arguments passed through to the view, and
    what a view returns. *)
Context {Args RV : Type}.

(** What the wrapper asks of its environment. *)
Inductive op : Type -> Type :=
| RequestMethod : op string
| MakeDefaultOptionsResponse : op loc
| CallView (args : Args) : op RV
| MakeResponse (rv : RV) : op loc
| HeadersGet (r : loc) (key : string) : op string
| HeadersSet (r : loc) (key value : string) : op unit.

Inductive prog (A : Type) : Type :=
| Return (a : A)
| Do {X : Type} (o : op X) (k : X -> prog A).
Arguments Return {A} a.
Arguments Do {A X} o k.

Fixpoint bind {A B} (m : prog A) (f : A -> prog B) : prog B :=
  match m with
  | Return a => f a
  | Do o k => Do o (fun x => bind (k x) f)
  end.

Definition call {X} (o : op X) : prog X := Do o Return.

Notation "x <- m ;; k" := (bind m (fun x => k))
  (at level 100, m at next level, right associativity).
Notation "m ;; k" := (bind m (fun _ => k))
  (at level 100, right associativity).

(** [request.method == m] and [request.method != m]. *)
Definition request_method_is (m : string) : prog bool :=
  method <- call RequestMethod ;;
  Return (String.eqb method m).

Definition request_method_is_not (m : string) : prog bool :=
  method <- call RequestMethod ;;
  Return (negb (String.eqb method m)).

(** [a and b]: the right operand is evaluated only when the left one
    holds. *)
Definition and_then (a : bool) (b : prog bool) : prog bool :=
  if a then b else Return false.

Notation "a 'and_' b" := (and_then a b) (at level 40, no associativity).

Section Closure.

Variable p : policy.

Definition get_methods : prog string :=
  match methods p with
  | Some m => Return m
  | None =>
      options_resp <- call MakeDefaultOptionsResponse ;;
      call (HeadersGet options_resp "allow")
  end.

Definition wrapped_function (args : Args) : prog loc :=
  options <- automatic_options p and_ request_method_is "OPTIONS" ;;
  resp <-
    (if options then
       call MakeDefaultOptionsResponse
     else
       rv <- call (CallView args) ;;
       call (MakeResponse rv)) ;;
  skip <- negb (attach_to_all p) and_ request_method_is_not "OPTIONS" ;;
  if skip then
    Return resp
  else
    let h := resp in
    call (HeadersSet h "Access-Control-Allow-Origin" (origin p)) ;;
    m <- get_methods ;;
    call (HeadersSet h "Access-Control-Allow-Methods" m) ;;
    call (HeadersSet h "Access-Control-Max-Age" (str_number (max_age p))) ;;
    match headers p with
    | Some hs => call (HeadersSet h "Access-Control-Allow-Headers" hs)
    | None => Return tt
    end ;;
    Return resp.

End Closure.

(** *** The environment *)

(** One request as the framework presents it: the method of the request,
    the default OPTIONS response it builds for the route of the request,
    the view function (which may raise, and may touch any response
    object) and the coercion of a view's return value into a response
    object. *)
Record framework : Type := Framework {
  fw_method : string;
  fw_default_options : Response.t;
  fw_view : Args -> store -> result RV * store;
  fw_make_response : RV -> store -> loc * store
}.

Inductive tag : Type :=
| TRequestMethod
| TMakeDefaultOptionsResponse
| TCallView
| TMakeResponse
| THeadersGet
| THeadersSet.

Definition tag_of {X} (o : op X) : tag :=
  match o with
  | RequestMethod => TRequestMethod
  | MakeDefaultOptionsResponse => TMakeDefaultOptionsResponse
  | CallView _ => TCallView
  | MakeResponse _ => TMakeResponse
  | HeadersGet _ _ => THeadersGet
  | HeadersSet _ _ _ => THeadersSet
  end.

(** One operation on the store. A reference outside the store cannot
    arise in Python; here it ends the run with [InvalidReference]. *)
Definition perform (fw : framework) {X} (o : op X) (st : store)
    : result X * store :=
  match o in op X return (result X * store)%type with
  | RequestMethod => (Ok (fw_method fw), st)
  | MakeDefaultOptionsResponse =>
      (Ok (length st), (st ++ [fw_default_options fw])%list)
  | CallView args => fw_view fw args st
  | MakeResponse rv =>
      let '(l, st') := fw_make_response fw rv st in (Ok l, st')
  | HeadersGet r key =>
      match st !! r with
      | Some resp =>
          match Headers.get (Response.headers resp) key with
          | Some v => (Ok v, st)
          | None => (Raise KeyError, st)
          end
      | None => (Raise InvalidReference, st)
      end
  | HeadersSet r key value =>
      match st !! r with
      | Some resp => (Ok tt, <[r := Response.set_header resp key value]> st)
      | None => (Raise InvalidReference, st)
      end
  end.

(** Running a program: the outcome, the store it leaves and the
    operations it performed, in order. *)
Fixpoint run (fw : framework) {A} (m : prog A) (st : store)
    : result A * store * list tag :=
  match m with
  | Return a => (Ok a, st, [])
  | Do o k =>
      match perform fw o st with
      | (Ok x, st') =>
          let '(res, st'', tr) := run fw (k x) st' in
          (res, st'', tag_of o :: tr)
      | (Raise e, st') => (Raise e, st', [tag_of o])
      end
  end.

End Wrapper.

Arguments Return {Args RV A} a.
Arguments Do {Args RV A X} o k.
Arguments op : clear implicits.
Arguments prog : clear implicits.
Arguments framework : clear implicits.

(** ** Decoration time: [decorator(f)] *)

Module Decoration.

Local Open Scope result_scope.

(** What a function object runs when called: a view of the application,
    or the closure [wrapped_function] over a policy and the view [f]. *)
Inductive code : Type :=
| ViewCode (id : nat)
| WrappedFunction (p : policy) (f : loc).

(** A function object: the attributes [update_wrapper] assigns and the
    instance dictionary, where [setattr] puts every other attribute. *)
Record function : Type := Function {
  func_module : string;
  func_name : string;
  func_doc : option string;
  func_dict : gmap string pyval;
  func_code : code
}.

Abbreviation fstore := (list function) (only parsing).

Definition getattr (fn : function) (name : string) : option pyval :=
  func_dict fn !! name.

Definition setattr (name : string) (v : pyval) (fn : function) : function :=
  Function (func_module fn) (func_name fn) (func_doc fn)
           (<[name := v]> (func_dict fn)) (func_code fn).

(** [functools.update_wrapper(wrapper, wrapped)] of Python 2: assigns
    [__module__], [__name__] and [__doc__] and updates the wrapper's
    [__dict__] with the wrapped function's. *)
Definition update_wrapper (wrapper wrapped : loc) (fs : fstore)
    : result (loc * fstore) :=
  match fs !! wrapper, fs !! wrapped with
  | Some w, Some f =>
      let w' := Function (func_module f) (func_name f) (func_doc f)
                         (func_dict f ∪ func_dict w) (func_code w) in
      Ok (wrapper, <[wrapper := w']> fs)
  | _, _ => Raise InvalidReference
  end.

(** The function object the [def wrapped_function] statement makes. *)
Definition def_wrapped_function (p : policy) (f : loc) : function :=
  Function "rainman.helpers.decorators" "wrapped_function" None ∅
           (WrappedFunction p f).

Definition decorator (p : policy) (f : loc) (fs : fstore)
    : result (loc * fstore) :=
  match fs !! f with
  | None => Raise InvalidReference
  | Some _ =>
      let wrapped_function := length fs in
      let fs := (fs ++ [def_wrapped_function p f])%list in
      let fs :=
        alter (setattr "provide_automatic_options" (PyBool false)) f fs in
      update_wrapper wrapped_function f fs
  end.

End Decoration.

(** ** The framework's side of [provide_automatic_options]

    How Flask reads the attribute when a view function is registered
    ([add_url_rule]) and when a request is dispatched
    ([dispatch_request]). *)

Module Flask.

Import Decoration.





End Flask.

(** * The vocabulary of the statements *)

(** The names of the four headers. *)
Definition ACAO : string := "Access-Control-Allow-Origin".
Definition ACAM : string := "Access-Control-Allow-Methods".
Definition ACMA : string := "Access-Control-Max-Age".
Definition ACAH : string := "Access-Control-Allow-Headers".

Section Vocabulary.

Context {Args RV : Type}.
Implicit Types (fw : framework Args RV) (p : policy) (st : store).
Implicit Types (args : Args).

(** [make_response(f(args))]: the response object of the view. *)
Definition view_response fw args st : result loc * store :=
  match fw_view fw args st with
  | (Ok rv, st') =>
      let '(l, st'') := fw_make_response fw rv st' in (Ok l, st'')
  | (Raise e, st') => (Raise e, st')
  end.

Definition is_options fw : bool := String.eqb (fw_method fw) "OPTIONS".

(** Whether the headers are attached for this request. *)
Definition attaches p fw : bool :=
  negb (negb (attach_to_all p) && negb (is_options fw)).

(** What [get_methods()] evaluates to; [None] when the default OPTIONS
    response has no [Allow] header. *)
Definition allow_methods p fw : option string :=
  match methods p with
  | Some m => Some m
  | None => Headers.get (Response.headers (fw_default_options fw)) "allow"
  end.

(** The response objects [get_methods()] leaves behind. *)
Definition garbage p fw : store :=
  match methods p with
  | Some _ => []
  | None => [fw_default_options fw]
  end.

(** The four assignments on a response. *)
Definition attach p (m : string) (r0 : Response.t) : Response.t :=
  let r1 := Response.set_header r0 ACAO (origin p) in
  let r2 := Response.set_header r1 ACAM m in
  let r3 := Response.set_header r2 ACMA (str_number (max_age p)) in
  match headers p with
  | Some hs => Response.set_header r3 ACAH hs
  | None => r3
  end.

(** The assignments of the wrapper on the response [resp]. *)
Definition attach_tail p (resp : loc) : prog Args RV loc :=
  bind (call (HeadersSet resp ACAO (origin p))) (fun _ =>
  bind (get_methods p) (fun m =>
  bind (call (HeadersSet resp ACAM m)) (fun _ =>
  bind (call (HeadersSet resp ACMA (str_number (max_age p)))) (fun _ =>
  bind match headers p with
       | Some hs => call (HeadersSet resp ACAH hs)
       | None => Return tt
       end (fun _ =>
  Return resp))))).

(** The response the wrapper starts from: the framework's default
    OPTIONS response, freshly made, or the response of the view. *)
Definition produce p fw args st : result loc * store :=
  if automatic_options p && is_options fw then
    (Ok (length st), (st ++ [fw_default_options fw])%list)
  else view_response fw args st.

Definition produce_trace p fw args st : list tag :=
  ((if automatic_options p then [TRequestMethod] else []) ++
   if automatic_options p && is_options fw then
     [TMakeDefaultOptionsResponse]
   else
     match fw_view fw args st with
     | (Ok _, _) => [TCallView; TMakeResponse]
     | (Raise _, _) => [TCallView]
     end)%list.

(** What the wrapper does to the response it started from. *)
Definition finish p fw (resp : loc) st : result loc * store :=
  if attaches p fw then
    match st !! resp with
    | None => (Raise InvalidReference, st)
    | Some r0 =>
        match allow_methods p fw with
        | Some m =>
            (Ok resp, (<[resp := attach p m r0]> st ++ garbage p fw)%list)
        | None =>
            (Raise KeyError,
             (<[resp := Response.set_header r0 ACAO (origin p)]> st
              ++ garbage p fw)%list)
        end
    end
  else (Ok resp, st).

Definition finish_trace p fw (resp : loc) st : list tag :=
  ((if attach_to_all p then [] else [TRequestMethod]) ++
  if attaches p fw then
    THeadersSet ::
    match st !! resp with
    | None => []
    | Some _ =>
        match methods p with
        | Some _ => []
        | None => [TMakeDefaultOptionsResponse; THeadersGet]
        end ++
        match allow_methods p fw with
        | Some _ =>
            [THeadersSet; THeadersSet] ++
            match headers p with Some _ => [THeadersSet] | None => [] end
        | None => []
        end
    end
  else [])%list.

(** The result of the handler: the response object that
    [make_response(f(args))] is, or the exception of the view. *)
Definition handler_result fw args st : result Response.t :=
  match view_response fw args st with
  | (Ok l, st1) =>
      match st1 !! l with
      | Some r => Ok r
      | None => Raise InvalidReference
      end
  | (Raise e, _) => Raise e
  end.

(** The four headers of a response. *)
Definition cors_headers (resp : Response.t)
    : option string * option string * option string * option string :=
  let h := Response.headers resp in
  (Headers.get h ACAO, Headers.get h ACAM, Headers.get h ACMA,
   Headers.get h ACAH).

(** The four headers of the response an invocation returns. *)
Definition produced_headers p fw args st :=
  match run fw (wrapped_function p args) st with
  | (Ok r, st', _) => cors_headers <$> st' !! r
  | (Raise _, _, _) => None
  end.

(** The same, from the policy and what the invocation meets: the method
    of the request, the default OPTIONS response and the result of the
    handler. *)
Definition headers_of p (method : string) (dflt : Response.t)
    (hres : result Response.t) :=
  let options := String.eqb method "OPTIONS" in
  match (if automatic_options p && options then Ok dflt else hres) with
  | Raise _ => None
  | Ok r0 =>
      if negb (negb (attach_to_all p) && negb options) then
        match methods p with
        | Some m => Some (cors_headers (attach p m r0))
        | None =>
            match Headers.get (Response.headers dflt) "allow" with
            | Some m => Some (cors_headers (attach p m r0))
            | None => None
            end
        end
      else Some (cors_headers r0)
  end.

End Vocabulary.

(** The policy in the closure of a function object made by [decorator]. *)
Definition closure_policy (fs : Decoration.fstore) (w : loc) : option policy :=
  fn ← fs !! w;
  match Decoration.func_code fn with
  | Decoration.WrappedFunction p _ => Some p
  | Decoration.ViewCode _ => None
  end.

(** [iter(v)] succeeds. *)
Definition is_iterable (v : pyval) : bool :=
  match Config.iter v with
  | Ok _ => true
  | Raise _ => false
  end.

(** Whether a character occurs in a string. *)
Fixpoint occurs (c : ascii) (s : string) : bool :=
  match s with
  | EmptyString => false
  | String c' s' => Ascii.eqb c c' || occurs c s'
  end.

(** The mark of a float: a point, an exponent, or [inf] and [nan]. *)
Definition float_mark (s : string) : bool :=
  occurs "." s || occurs "e" s || occurs "n" s.

(** ** A small application *)

Module App.

(** A request as a small application presents it: the method, the [Allow]
    header of the default OPTIONS response of the route, a view that
    returns a string and the response object made of it. *)
Definition request (method allow : string) : framework unit string :=
  Framework method
    (Response.Make 200 "" [("Allow", allow)])
    (fun _ st => (Ok "ok", st))
    (fun rv st =>
       (length st,
        (st ++ [Response.Make 200 rv [("Content-Type", "text/html")]])%list)).

(** Two GET requests for one view registered under two routes: [/a] allows
    GET, [/b] allows GET and POST. *)
Definition route_a : framework unit string :=
  request "GET" "HEAD, OPTIONS, GET".
Definition route_b : framework unit string :=
  request "GET" "HEAD, OPTIONS, POST, GET".

(** The preflight request of a browser for [/a]. *)
Definition preflight : framework unit string :=
  request "OPTIONS" "HEAD, OPTIONS, GET".

(** A view whose response already carries [Access-Control-Allow-Headers],
    as a view that handles CORS itself would make it. *)
Definition view_with_allow_headers : framework unit string :=
  Framework "GET"
    (Response.Make 200 "" [("Allow", "HEAD, OPTIONS, GET")])
    (fun _ st => (Ok "ok", st))
    (fun rv st =>
       (length st,
        (st ++ [Response.Make 200 rv [(ACAH, "X-Requested-With")]])%list)).

(** [@crossdomain(origin='*')]: the headers on every response, OPTIONS
    answered by the framework. *)
Definition open_policy : policy :=
  Policy "*" None None (NumInt 21600) true true.

(** [@crossdomain(origin='*', methods=['post', 'get'],
    headers=['x-requested-with'], attach_to_all=False)]. *)
Definition preflight_policy : policy :=
  Policy "*" (Some "GET, POST") (Some "X-REQUESTED-WITH") (NumInt 21600)
         false true.

(** [def index(): ...] of the module [app]. *)
Definition index : Decoration.function :=
  Decoration.Function "app" "index" None ∅ (Decoration.ViewCode 0).

End App.

(** ** Two statements of the specification as they are written *)

(** The statement that a returned response carries the header exactly when
    the policy has headers and the headers are attached. *)
Definition allow_headers_iff_configured : Prop :=
  forall (Args RV : Type) (p : policy) (fw : framework Args RV)
         (args : Args) (st : store) (r : loc) (st' : store) (tr : list tag)
         (resp : Response.t),
    run fw (wrapped_function p args) st = (Ok r, st', tr) ->
    st' !! r = Some resp ->
    (is_Some (Headers.get (Response.headers resp) ACAH) <->
     is_Some (headers p) /\
     (attach_to_all p = true \/ fw_method fw = "OPTIONS")).

(** The statement that the method of the request and the result of the
    handler decide the four headers. *)
Definition same_method_and_result_same_headers : Prop :=
  forall (Args RV : Type) (p : policy) (fw1 fw2 : framework Args RV)
         (args1 args2 : Args) (st1 st2 : store),
    fw_method fw1 = fw_method fw2 ->
    handler_result fw1 args1 st1 = handler_result fw2 args2 st2 ->
    produced_headers p fw1 args1 st1 = produced_headers p fw2 args2 st2.

(** ** Further vocabulary *)

(** The number of entries of a header mapping under a key. *)
Fixpoint header_count (h : Headers.t) (key : string) : nat :=
  match h with
  | [] => O
  | (k, _) :: h' =>
      if Headers.same_key k key then S (header_count h' key)
      else header_count h' key
  end.


(** An iterable whose items are all strings: a string, by its characters,
    or a sequence of strings. *)
Definition iterable_of_strings (v : pyval) : Prop :=
  exists l : list string, Config.iter v = Ok (map PyStr l).

(** A sequence with an item that is not a string. *)
Definition has_non_string (l : list pyval) : Prop :=
  exists x, In x l /\ Config.is_basestring x = false.

Definition tag_eqb (t1 t2 : tag) : bool :=
  match t1, t2 with
  | TRequestMethod, TRequestMethod
  | TMakeDefaultOptionsResponse, TMakeDefaultOptionsResponse
  | TCallView, TCallView
  | TMakeResponse, TMakeResponse
  | THeadersGet, THeadersGet
  | THeadersSet, THeadersSet => true
  | _, _ => false
  end.

(** How often an operation was performed in a run. *)
Fixpoint occurrences (t : tag) (tr : list tag) : nat :=
  match tr with
  | [] => O
  | t' :: tr' =>
      if tag_eqb t t' then S (occurrences t tr') else occurrences t tr'
  end.

(** ** More of the small application *)

Module AppMore.

(** A view that raises. *)
Definition failing_view : framework unit string :=
  Framework "GET"
    (Response.Make 200 "" [("Allow", "HEAD, OPTIONS, GET")])
    (fun _ st => (Raise (ViewError "no such record"), st))
    (fun rv st => (length st, (st ++ [Response.Make 200 rv []])%list)).

(** A request for which the default OPTIONS response has no [Allow]
    header. *)
Definition no_allow : framework unit string :=
  Framework "GET"
    (Response.Make 200 "" [])
    (fun _ st => (Ok "ok", st))
    (fun rv st => (length st, (st ++ [Response.Make 200 rv []])%list)).


(** A view that answers OPTIONS itself. *)
Definition own_options : framework unit string :=
  App.request "OPTIONS" "HEAD, OPTIONS, GET".

(** [@crossdomain(origin='*', methods=['get'], attach_to_all=False,
    automatic_options=False)]. *)
Definition manual_policy : policy :=
  Policy "*" (Some "GET") None (NumInt 21600) false false.

(** [@crossdomain(origin='*', methods=['get'])]. *)
Definition get_policy : policy :=
  Policy "*" (Some "GET") None (NumInt 21600) true true.

(** A response on which a view has put CORS headers of its own, one of
    them twice. *)
Definition own_cors : Response.t :=
  Response.Make 200 "ok"
    [("access-control-allow-origin", "http://a.example");
     ("Content-Type", "text/html");
     ("Access-Control-Allow-Origin", "http://b.example")].

(** The view that returns it. *)
Definition view_with_own_cors : framework unit string :=
  Framework "GET"
    (Response.Make 200 "" [("Allow", "HEAD, OPTIONS, GET")])
    (fun _ st => (Ok "ok", st))
    (fun rv st => (length st, (st ++ [own_cors])%list)).

End AppMore.

(** A request in which the view is itself a function decorated under the
    policy [inner]: calling it runs the inner wrapper, and
    [make_response] of the response object it returns is that object. *)
Definition decorated_view {Args RV : Type} (fw : framework Args RV)
    (inner : policy) : framework Args loc :=
  Framework (fw_method fw) (fw_default_options fw)
    (fun args st =>
       let '(res, st', _) := run fw (wrapped_function inner args) st in
       (res, st'))
    (fun l st => (l, st)).

(** * Properties *)

(** ** Facts about the header mapping *)

Module HeadersFacts.
Import Headers.

Lemma same_key_refl k : same_key k k = true.
Proof. unfold same_key. apply String.eqb_refl. Qed.

Lemma same_key_other k0 k k' :
  same_key k0 k = true -> same_key k k' = false -> same_key k0 k' = false.
Proof.
  unfold same_key. intros H%String.eqb_eq. rewrite H. trivial.
Qed.

Lemma get_remove_other h k k' :
  same_key k k' = false -> get (remove h k) k' = get h k'.
Proof.
  intros Hk. induction h as [| [k0 v0] h IH]; [reflexivity |].
  simpl. destruct (same_key k0 k) eqn:E; simpl.
  - rewrite (same_key_other _ _ _ E Hk). exact IH.
  - rewrite IH. reflexivity.
Qed.

Lemma get_set_same h k v : get (set h k v) k = Some v.
Proof.
  induction h as [| [k0 v0] h IH]; simpl.
  - rewrite same_key_refl. reflexivity.
  - destruct (same_key k0 k) eqn:E; simpl.
    + rewrite same_key_refl. reflexivity.
    + rewrite E. exact IH.
Qed.

Lemma get_set_other h k v k' :
  same_key k k' = false -> get (set h k v) k' = get h k'.
Proof.
  intros Hk. induction h as [| [k0 v0] h IH]; simpl.
  - rewrite Hk. reflexivity.
  - destruct (same_key k0 k) eqn:E; simpl.
    + rewrite Hk, (same_key_other _ _ _ E Hk). apply get_remove_other, Hk.
    + rewrite IH. reflexivity.
Qed.
End HeadersFacts.

(** ** The wrapper, step by step *)

Section Semantics.

Context {Args RV : Type}.
Implicit Types (fw : framework Args RV) (p : policy) (st : store).
Implicit Types (args : Args).

Lemma run_bind fw {A B} (m : prog Args RV A) (f : A -> prog Args RV B) st :
  run fw (bind m f) st =
  match run fw m st with
  | (Ok a, st', tr) =>
      let '(res, st'', tr') := run fw (f a) st' in
      (res, st'', (tr ++ tr')%list)
  | (Raise e, st', tr) => (Raise e, st', tr)
  end.
Proof.
  revert st. induction m as [a | X o k IH]; intros st; simpl.
  - destruct (run fw (f a) st) as [[res st'] tr]. reflexivity.
  - destruct (perform fw o st) as [[x | e] st1]; [| reflexivity].
    rewrite IH.
    destruct (run fw (k x) st1) as [[[a | e] st2] tr]; [| reflexivity].
    destruct (run fw (f a) st2) as [[res st3] tr']. reflexivity.
Qed.

Lemma run_call fw {X} (o : op Args RV X) st :
  run fw (call o) st =
  let '(res, st') := perform fw o st in (res, st', [tag_of o]).
Proof.
  unfold call. simpl. destruct (perform fw o st) as [[x | e] st']; reflexivity.
Qed.

Lemma perform_set fw (r : loc) key value st (r0 : Response.t) :
  st !! r = Some r0 ->
  perform fw (HeadersSet r key value) st =
  (Ok tt, <[r := Response.set_header r0 key value]> st).
Proof. intros H. simpl. rewrite H. reflexivity. Qed.

Lemma wrapped_function_unfold p args :
  (wrapped_function p args : prog Args RV loc) =
  bind (and_then (automatic_options p) (request_method_is "OPTIONS"))
    (fun options =>
  bind (if options
        then call MakeDefaultOptionsResponse
        else bind (call (CallView args)) (fun rv => call (MakeResponse rv)))
    (fun resp =>
  bind (and_then (negb (attach_to_all p)) (request_method_is_not "OPTIONS"))
    (fun skip =>
  if skip then Return resp else attach_tail p resp))).
Proof. reflexivity. Qed.

Lemma run_and_then fw (a : bool) (m : string) (neg : bool) st :
  run fw (and_then a (if neg then request_method_is_not m
                      else request_method_is m)) st =
  (Ok (a && (if neg then negb (String.eqb (fw_method fw) m)
             else String.eqb (fw_method fw) m)),
   st, if a then [TRequestMethod] else []).
Proof. destruct a, neg; reflexivity. Qed.

(** A store in which [resp] holds [x], followed by later allocations. *)
Lemma set_step fw st (resp : loc) (r0 x : Response.t) (g : store) key value :
  st !! resp = Some r0 ->
  perform fw (HeadersSet resp key value) (<[resp := x]> st ++ g)%list =
  (Ok tt, (<[resp := Response.set_header x key value]> st ++ g)%list).
Proof.
  intros H. pose proof (lookup_lt_Some _ _ _ H) as Hlt.
  assert (Hx : ((<[resp := x]> st ++ g)%list : store) !! resp = Some x).
  { rewrite lookup_app_l by (rewrite length_insert; exact Hlt).
    apply list_lookup_insert_eq, Hlt. }
  rewrite (perform_set _ _ _ _ _ _ Hx).
  rewrite insert_app_l by (rewrite length_insert; exact Hlt).
  rewrite list_insert_insert_eq. reflexivity.
Qed.

Lemma run_get_methods fw p st :
  run fw (get_methods p) st =
  (match allow_methods p fw with
   | Some m => Ok m
   | None => Raise KeyError
   end,
   (st ++ garbage p fw)%list,
   match methods p with
   | Some _ => []
   | None => [TMakeDefaultOptionsResponse; THeadersGet]
   end).
Proof.
  unfold get_methods, allow_methods, garbage.
  destruct (methods p) as [m |]; simpl.
  - rewrite app_nil_r. reflexivity.
  - rewrite list_lookup_middle by reflexivity.
    destruct (Headers.get _ _); reflexivity.
Qed.

Lemma run_attach_tail fw p st (resp : loc) (r0 : Response.t) :
  st !! resp = Some r0 ->
  run fw (attach_tail p resp) st =
  (match allow_methods p fw with
   | Some m => (Ok resp, (<[resp := attach p m r0]> st ++ garbage p fw)%list)
   | None =>
       (Raise KeyError,
        (<[resp := Response.set_header r0 ACAO (origin p)]> st
         ++ garbage p fw)%list)
   end,
   (THeadersSet ::
    match methods p with
    | Some _ => []
    | None => [TMakeDefaultOptionsResponse; THeadersGet]
    end ++
    match allow_methods p fw with
    | Some _ =>
        [THeadersSet; THeadersSet] ++
        match headers p with Some _ => [THeadersSet] | None => [] end
    | None => []
    end)%list).
Proof.
  intros H. unfold attach_tail.
  rewrite run_bind, run_call, (perform_set _ _ _ _ _ _ H).
  rewrite run_bind, run_get_methods.
  destruct (allow_methods p fw) as [m |];
    [| simpl; rewrite app_nil_r; reflexivity].
  rewrite run_bind, run_call, (set_step _ _ _ _ _ _ _ _ H).
  rewrite run_bind, run_call, (set_step _ _ _ _ _ _ _ _ H).
  rewrite run_bind. unfold attach.
  destruct (headers p) as [hs |].
  - rewrite run_call, (set_step _ _ _ _ _ _ _ _ H). reflexivity.
  - simpl. reflexivity.
Qed.

Lemma run_attach_tail_dangling fw p st (resp : loc) :
  st !! resp = None ->
  run fw (attach_tail p resp) st = (Raise InvalidReference, st, [THeadersSet]).
Proof.
  intros H. unfold attach_tail. rewrite run_bind, run_call. simpl.
  rewrite H. reflexivity.
Qed.

(** *** The wrapper as a whole *)

Lemma run_produce p fw args st (k : loc -> prog Args RV loc) :
  run fw
    (bind (and_then (automatic_options p) (request_method_is "OPTIONS"))
       (fun options =>
     bind (if options
           then call MakeDefaultOptionsResponse
           else bind (call (CallView args))
                     (fun rv => call (MakeResponse rv))) k)) st =
  match produce p fw args st with
  | (Ok resp, st1) =>
      let '(res, st2, tr) := run fw (k resp) st1 in
      (res, st2, (produce_trace p fw args st ++ tr)%list)
  | (Raise e, st1) => (Raise e, st1, produce_trace p fw args st)
  end.
Proof.
  rewrite run_bind, (run_and_then fw _ "OPTIONS" false).
  unfold produce, produce_trace, is_options, view_response.
  rewrite run_bind.
  destruct (automatic_options p && String.eqb (fw_method fw) "OPTIONS").
  - rewrite run_call. cbn [perform tag_of].
    destruct (run fw (k (length st)) _) as [[res st2] tr].
    rewrite <- !app_assoc. reflexivity.
  - rewrite run_bind, run_call. cbn [perform tag_of].
    destruct (fw_view fw args st) as [[rv | e] st'].
    + rewrite run_call. cbn [perform tag_of].
      destruct (fw_make_response fw rv st') as [l st''].
      destruct (run fw (k l) st'') as [[res st2] tr].
      rewrite <- !app_assoc. reflexivity.
    + reflexivity.
Qed.

Lemma run_finish p fw (resp : loc) st :
  run fw
    (bind (and_then (negb (attach_to_all p)) (request_method_is_not "OPTIONS"))
       (fun skip => if skip then Return resp else attach_tail p resp)) st =
  (finish p fw resp st, finish_trace p fw resp st).
Proof.
  rewrite run_bind, (run_and_then fw _ "OPTIONS" true).
  unfold finish, finish_trace, attaches, is_options.
  destruct (attach_to_all p), (String.eqb (fw_method fw) "OPTIONS");
    cbn [negb andb app]; try reflexivity;
    (destruct (st !! resp) as [r0 |] eqn:H;
     [ rewrite (run_attach_tail _ _ _ _ _ H);
       destruct (allow_methods p fw); reflexivity
     | rewrite (run_attach_tail_dangling _ _ _ _ H); reflexivity ]).
Qed.

(** The run of the wrapper: its outcome, the store it leaves and the
    operations it performed. *)
Theorem run_wrapped_function p fw args st :
  run fw (wrapped_function p args) st =
  match produce p fw args st with
  | (Ok resp, st1) =>
      (finish p fw resp st1,
       (produce_trace p fw args st ++ finish_trace p fw resp st1)%list)
  | (Raise e, st1) => (Raise e, st1, produce_trace p fw args st)
  end.
Proof.
  rewrite wrapped_function_unfold, run_produce.
  destruct (produce p fw args st) as [[resp | e] st1]; [| reflexivity].
  rewrite run_finish. destruct (finish p fw resp st1). reflexivity.
Qed.

End Semantics.

(** ** What [attach] does to the headers *)

Section Attach.

Implicit Types (p : policy) (r : Response.t).

Lemma set_header_same r k v :
  Headers.get (Response.headers (Response.set_header r k v)) k = Some v.
Proof. apply HeadersFacts.get_set_same. Qed.

Lemma set_header_other r k v k' :
  Headers.same_key k k' = false ->
  Headers.get (Response.headers (Response.set_header r k v)) k' =
  Headers.get (Response.headers r) k'.
Proof. apply HeadersFacts.get_set_other. Qed.

Lemma attach_origin p m r :
  Headers.get (Response.headers (attach p m r)) ACAO = Some (origin p).
Proof.
  unfold attach. destruct (headers p);
    rewrite ?(set_header_other _ ACAH), ?(set_header_other _ ACMA),
      ?(set_header_other _ ACAM) by reflexivity;
    apply set_header_same.
Qed.

Lemma attach_methods p m r :
  Headers.get (Response.headers (attach p m r)) ACAM = Some m.
Proof.
  unfold attach. destruct (headers p);
    rewrite ?(set_header_other _ ACAH), ?(set_header_other _ ACMA)
      by reflexivity;
    apply set_header_same.
Qed.

Lemma attach_max_age p m r :
  Headers.get (Response.headers (attach p m r)) ACMA =
  Some (str_number (max_age p)).
Proof.
  unfold attach. destruct (headers p);
    rewrite ?(set_header_other _ ACAH) by reflexivity;
    apply set_header_same.
Qed.

Lemma attach_headers p m r :
  Headers.get (Response.headers (attach p m r)) ACAH =
  match headers p with
  | Some hs => Some hs
  | None => Headers.get (Response.headers r) ACAH
  end.
Proof.
  unfold attach. destruct (headers p).
  - apply set_header_same.
  - rewrite !set_header_other by reflexivity. reflexivity.
Qed.



End Attach.

(** ** The outcomes of a request *)

Section Outcomes.

Context {Args RV : Type}.
Implicit Types (fw : framework Args RV) (p : policy) (st : store).
Implicit Types (args : Args).

Lemma attaches_true p fw :
  attaches p fw = true <->
  attach_to_all p = true \/ fw_method fw = "OPTIONS".
Proof.
  unfold attaches, is_options. rewrite <- String.eqb_eq.
  destruct (attach_to_all p), (String.eqb _ _); simpl; intuition congruence.
Qed.

(** The object at [resp] after [finish], and the objects before it. *)
Lemma finish_lookup p fw (resp : loc) st (r0 : Response.t) m :
  st !! resp = Some r0 ->
  ((<[resp := attach p m r0]> st ++ garbage p fw)%list : store) !! resp =
  Some (attach p m r0).
Proof.
  intros H. pose proof (lookup_lt_Some _ _ _ H) as Hlt.
  rewrite lookup_app_l by (rewrite length_insert; exact Hlt).
  apply list_lookup_insert_eq, Hlt.
Qed.

Lemma finish_lookup_ne p fw (resp : loc) st x (l : loc) :
  l <> resp -> (l < length st)%nat ->
  ((<[resp := x]> st ++ garbage p fw)%list : store) !! l = st !! l.
Proof.
  intros Hne Hlt.
  rewrite lookup_app_l by (rewrite length_insert; exact Hlt).
  apply list_lookup_insert_ne. congruence.
Qed.

(** A returned reference is live, and when the headers were attached it
    holds the produced response with the four assignments made. *)
Lemma returned_response p fw args st (r : loc) st' tr :
  run fw (wrapped_function p args) st = (Ok r, st', tr) ->
  exists st1,
    produce p fw args st = (Ok r, st1) /\
    if attaches p fw then
      exists r0 m,
        st1 !! r = Some r0 /\ allow_methods p fw = Some m /\
        st' = (<[r := attach p m r0]> st1 ++ garbage p fw)%list /\
        st' !! r = Some (attach p m r0)
    else st' = st1.
Proof.
  rewrite run_wrapped_function.
  destruct (produce p fw args st) as [[resp | e] st1]; [| discriminate].
  unfold finish. destruct (attaches p fw).
  - destruct (st1 !! resp) as [r0 |] eqn:H; [| discriminate].
    destruct (allow_methods p fw) as [m |]; [| discriminate].
    intros [= <- <- <-]. exists st1. split; [reflexivity |].
    exists r0, m. repeat split; try assumption.
    apply finish_lookup, H.
  - intros [= <- <- <-]. exists st1. split; reflexivity.
Qed.

(** The wrapper returns whenever it has a response to start from and
    [get_methods()] has a value. *)
Lemma wrapped_function_returns p fw args st (l : loc) st1 (r0 : Response.t) m :
  produce p fw args st = (Ok l, st1) ->
  st1 !! l = Some r0 ->
  allow_methods p fw = Some m ->
  exists st' tr, run fw (wrapped_function p args) st = (Ok l, st', tr).
Proof.
  intros Hp Hl Hm. rewrite run_wrapped_function, Hp. unfold finish.
  rewrite Hl, Hm. destruct (attaches p fw); eauto.
Qed.

Lemma produce_view p fw args st :
  automatic_options p && is_options fw = false ->
  produce p fw args st = view_response fw args st.
Proof. unfold produce. intros ->. reflexivity. Qed.

Lemma produce_default p fw args st :
  automatic_options p = true -> fw_method fw = "OPTIONS" ->
  produce p fw args st =
  (Ok (length st), (st ++ [fw_default_options fw])%list) /\
  produce_trace p fw args st = [TRequestMethod; TMakeDefaultOptionsResponse].
Proof.
  unfold produce, produce_trace, is_options. intros -> ->. split; reflexivity.
Qed.

End Outcomes.

(** ** Request-time claims *)

Section RequestClaims.

Context {Args RV : Type}.
Implicit Types (fw : framework Args RV) (p : policy) (st : store).
Implicit Types (args : Args).

(** C1. For an OPTIONS request under a policy with
    [automatic_options=True] the view function is never called: the
    response the wrapper works on is the object the framework's default
    OPTIONS response call has just made, it is the one returned, and no
    older response object is touched. When the policy has no methods and
    the default response has no [Allow] header, the wrapper raises
    [KeyError], again without calling the view. *)
Theorem automatic_options_skips_view p fw args st :
  automatic_options p = true ->
  fw_method fw = "OPTIONS" ->
  exists res st' tr,
    run fw (wrapped_function p args) st = (res, st', tr) /\
    ~ In TCallView tr /\
    In TMakeDefaultOptionsResponse tr /\
    match allow_methods p fw with
    | Some m =>
        res = Ok (length st) /\
        st' !! length st = Some (attach p m (fw_default_options fw)) /\
        forall l : loc, (l < length st)%nat -> st' !! l = st !! l
    | None => res = Raise KeyError
    end.
Proof.
  intros Hauto Hm.
  destruct (produce_default p fw args st Hauto Hm) as [Hp Ht].
  assert (Hatt : attaches p fw = true) by (apply attaches_true; auto).
  assert (Hl : ((st ++ [fw_default_options fw])%list : store) !! length st
               = Some (fw_default_options fw))
    by (apply list_lookup_middle; reflexivity).
  rewrite run_wrapped_function, Hp, Ht.
  unfold finish, finish_trace. rewrite Hatt, Hl.
  destruct (allow_methods p fw) as [m |] eqn:Hallow.
  - eexists _, _, _. split; [reflexivity |].
    split; [| split; [simpl; auto |]].
    + destruct (attach_to_all p), (methods p), (headers p); simpl;
        intuition discriminate.
    + split; [reflexivity |]. split.
      * apply finish_lookup, Hl.
      * intros l Hlt. rewrite finish_lookup_ne.
        -- apply lookup_app_l, Hlt.
        -- lia.
        -- rewrite length_app. simpl. lia.
  - eexists _, _, _. split; [reflexivity |].
    split; [| split; [simpl; auto | reflexivity]].
    destruct (attach_to_all p), (methods p); simpl; intuition discriminate.
Qed.

(** C2. For a GET request under a policy with [attach_to_all=True], a
    returned response carries [Access-Control-Allow-Origin] with the
    origin string of the policy; and the wrapper does return the
    response of the view whenever [get_methods()] has a value. *)
Theorem get_attach_to_all_allow_origin p fw args st :
  fw_method fw = "GET" ->
  attach_to_all p = true ->
  (forall (r : loc) st' tr,
      run fw (wrapped_function p args) st = (Ok r, st', tr) ->
      exists resp,
        st' !! r = Some resp /\
        Headers.get (Response.headers resp) ACAO = Some (origin p)) /\
  (forall (l : loc) st1 (r0 : Response.t) m,
      view_response fw args st = (Ok l, st1) ->
      st1 !! l = Some r0 ->
      allow_methods p fw = Some m ->
      exists st' tr, run fw (wrapped_function p args) st = (Ok l, st', tr)).
Proof.
  intros Hm Hall.
  assert (Hatt : attaches p fw = true) by (apply attaches_true; auto).
  split.
  - intros r st' tr Hrun.
    destruct (returned_response _ _ _ _ _ _ _ Hrun) as (st1 & _ & H).
    rewrite Hatt in H. destruct H as (r0 & m & _ & _ & _ & Hr).
    exists (attach p m r0). split; [exact Hr | apply attach_origin].
  - intros l st1 r0 m Hv Hl Hallow.
    apply (wrapped_function_returns p fw args st l st1 r0 m); try assumption.
    rewrite produce_view; [exact Hv |].
    unfold is_options. rewrite Hm. apply andb_false_r.
Qed.

(** C3. For a request that is not OPTIONS under a policy with
    [attach_to_all=False], the wrapper returns what the view's response
    is and leaves the store as the view left it: it assigns no header,
    so no [Access-Control-*] header is added and no header is changed.
    An exception of the view passes through. *)
Theorem attach_to_all_false_returns_unmodified p fw args st :
  attach_to_all p = false ->
  fw_method fw <> "OPTIONS" ->
  exists tr,
    run fw (wrapped_function p args) st =
    (view_response fw args st, tr) /\
    ~ In THeadersSet tr /\
    ~ In TMakeDefaultOptionsResponse tr.
Proof.
  intros Hall Hm. apply String.eqb_neq in Hm.
  rewrite run_wrapped_function, produce_view
    by (unfold is_options; rewrite Hm; apply andb_false_r).
  unfold produce_trace, finish, finish_trace, attaches, is_options.
  rewrite Hall, Hm, andb_false_r. cbn [negb andb].
  unfold view_response.
  destruct (fw_view fw args st) as [[rv | e] st1].
  - destruct (fw_make_response fw rv st1) as [l st2].
    eexists. split; [reflexivity |].
    destruct (automatic_options p); simpl; intuition discriminate.
  - eexists. split; [reflexivity |].
    destruct (automatic_options p); simpl; intuition discriminate.
Qed.

(** C4. Whenever the headers are attached, a returned response carries
    [Access-Control-Allow-Methods] with the method list of the policy
    when there is one; otherwise with the [Allow] header of a default
    OPTIONS response that the framework is asked for during the call. *)
Theorem allow_methods_configured_or_default p fw args st (r : loc) st' tr :
  attach_to_all p = true \/ fw_method fw = "OPTIONS" ->
  run fw (wrapped_function p args) st = (Ok r, st', tr) ->
  exists resp,
    st' !! r = Some resp /\
    match methods p with
    | Some m => Headers.get (Response.headers resp) ACAM = Some m
    | None =>
        Headers.get (Response.headers resp) ACAM =
        Headers.get (Response.headers (fw_default_options fw)) "allow" /\
        In TMakeDefaultOptionsResponse tr /\ In THeadersGet tr
    end.
Proof.
  intros Hatt%attaches_true Hrun.
  destruct (returned_response _ _ _ _ _ _ _ Hrun) as (st1 & Hp & H).
  rewrite Hatt in H. destruct H as (r0 & m & Hr0 & Hallow & _ & Hr).
  exists (attach p m r0). split; [exact Hr |].
  rewrite attach_methods. unfold allow_methods in Hallow.
  destruct (methods p) as [m' |] eqn:Hms; [symmetry; exact Hallow |].
  split; [symmetry; exact Hallow |].
  revert Hrun. rewrite run_wrapped_function, Hp.
  unfold finish, finish_trace, allow_methods.
  rewrite Hatt, Hr0, Hms, Hallow. intros [= _ <-].
  split; rewrite !in_app_iff; simpl; auto 10.
Qed.

(** The same for [Access-Control-Max-Age]: it is [str(max_age)]. *)
Lemma max_age_header p fw args st (r : loc) st' tr :
  attach_to_all p = true \/ fw_method fw = "OPTIONS" ->
  run fw (wrapped_function p args) st = (Ok r, st', tr) ->
  exists resp,
    st' !! r = Some resp /\
    Headers.get (Response.headers resp) ACMA = Some (str_number (max_age p)).
Proof.
  intros Hatt%attaches_true Hrun.
  destruct (returned_response _ _ _ _ _ _ _ Hrun) as (st1 & _ & H).
  rewrite Hatt in H. destruct H as (r0 & m & _ & _ & _ & Hr).
  exists (attach p m r0). split; [exact Hr | apply attach_max_age].
Qed.

End RequestClaims.

(** ** [Access-Control-Allow-Headers] *)

(** C6, as stated, fails: with [headers] unset the response of
    [view_with_allow_headers] comes back with its own
    [Access-Control-Allow-Headers]. *)
Lemma allow_headers_iff_configured_fails : ~ allow_headers_iff_configured.
Proof.
  intros H.
  specialize (H unit string (Policy "*" None None (NumInt 21600) true true)
                App.view_with_allow_headers tt [] 0%nat).
  specialize (H _ _ _ eq_refl eq_refl).
  destruct H as [H _]. destruct H as [[hs Hhs] _].
  - exists "X-Requested-With". reflexivity.
  - discriminate Hhs.
Qed.

Section AllowHeaders.

Context {Args RV : Type}.
Implicit Types (fw : framework Args RV) (p : policy) (st : store).
Implicit Types (args : Args).

(** C6, amended. The wrapper assigns [Access-Control-Allow-Headers], to
    the header list of the policy, exactly when the policy has one and
    the headers are attached; otherwise the header is as it is in the
    response the wrapper started from (the view's response or the
    default OPTIONS response), present or absent. *)
Theorem allow_headers_assigned_iff_configured
    p fw args st (r : loc) st' tr (resp : Response.t) :
  run fw (wrapped_function p args) st = (Ok r, st', tr) ->
  st' !! r = Some resp ->
  exists st1 (r0 : Response.t),
    produce p fw args st = (Ok r, st1) /\
    st1 !! r = Some r0 /\
    Headers.get (Response.headers resp) ACAH =
    match headers p with
    | Some hs =>
        if attaches p fw then Some hs
        else Headers.get (Response.headers r0) ACAH
    | None => Headers.get (Response.headers r0) ACAH
    end.
Proof.
  intros Hrun Hresp.
  destruct (returned_response _ _ _ _ _ _ _ Hrun) as (st1 & Hp & H).
  exists st1. destruct (attaches p fw).
  - destruct H as (r0 & m & Hr0 & _ & _ & Hr).
    exists r0. rewrite Hresp in Hr. injection Hr as ->.
    rewrite attach_headers. destruct (headers p); auto.
  - subst st'. exists resp. destruct (headers p); auto.
Qed.

End AllowHeaders.

(** ** Two invocations *)

Section Invocations.

Context {Args RV : Type}.
Implicit Types (fw : framework Args RV) (p : policy) (st : store).
Implicit Types (args : Args).

Lemma produced_headers_spec p fw args st :
  produced_headers p fw args st =
  headers_of p (fw_method fw) (fw_default_options fw)
             (handler_result fw args st).
Proof.
  unfold produced_headers, headers_of, handler_result.
  rewrite run_wrapped_function.
  unfold produce, finish, attaches, allow_methods, is_options.
  destruct (automatic_options p && _).
  - rewrite list_lookup_middle by reflexivity.
    destruct (negb (_ && _)).
    + destruct (methods p) as [m |];
        [| destruct (Headers.get _ "allow") as [m |]; [| reflexivity]];
        rewrite lookup_app_l, list_lookup_insert_eq;
        rewrite ?length_insert, ?length_app; simpl; try lia; reflexivity.
    + rewrite list_lookup_middle by reflexivity. reflexivity.
  - destruct (view_response fw args st) as [[l | e] st1]; [| reflexivity].
    destruct (negb (_ && _)).
    + destruct (st1 !! l) as [r0 |] eqn:Hl; [| reflexivity].
      pose proof (lookup_lt_Some _ _ _ Hl) as Hlt.
      destruct (methods p) as [m |];
        [| destruct (Headers.get _ "allow") as [m |]; [| reflexivity]];
        rewrite lookup_app_l, list_lookup_insert_eq;
        rewrite ?length_insert; try lia; reflexivity.
    + destruct (st1 !! l); reflexivity.
Qed.

End Invocations.

(** C7, as stated, fails: without configured methods the
    [Access-Control-Allow-Methods] header follows the default OPTIONS
    response of the route, which is not the same on [/a] and [/b]. *)
Lemma same_method_and_result_same_headers_fails :
  ~ same_method_and_result_same_headers.
Proof.
  intros H.
  specialize (H unit string (Policy "*" None None (NumInt 21600) true true)
                App.route_a App.route_b tt tt [] [] eq_refl eq_refl).
  vm_compute in H. discriminate H.
Qed.

Section TwoInvocations.

Context {Args RV : Type}.
Implicit Types (fw : framework Args RV) (p : policy) (st : store).

(** C7, amended. The wrapper that [decorator] makes keeps the policy it
    was made with, and any two invocations of it with the same request
    method, the same handler result and the same default OPTIONS
    response from the framework return the same four headers, whatever
    the stores they start from. *)
Theorem policy_fixed_same_headers
    p (f : loc) (fs : Decoration.fstore) (w : loc) fs'
    fw1 fw2 (args1 args2 : Args) st1 st2 :
  Decoration.decorator p f fs = Ok (w, fs') ->
  fw_method fw1 = fw_method fw2 ->
  handler_result fw1 args1 st1 = handler_result fw2 args2 st2 ->
  fw_default_options fw1 = fw_default_options fw2 ->
  closure_policy fs' w = Some p /\
  produced_headers p fw1 args1 st1 = produced_headers p fw2 args2 st2.
Proof.
  intros Hdec Hm Hres Hdflt. split.
  - unfold Decoration.decorator, Decoration.update_wrapper in Hdec.
    destruct (fs !! f) as [fn |] eqn:Hf; [| discriminate].
    pose proof (lookup_lt_Some _ _ _ Hf) as Hlt.
    rewrite list_lookup_alter_ne in Hdec by lia.
    rewrite list_lookup_middle in Hdec by reflexivity.
    rewrite list_lookup_alter_eq, lookup_app_l, Hf in Hdec by exact Hlt.
    simpl in Hdec. injection Hdec as <- <-.
    unfold closure_policy.
    rewrite list_lookup_insert_eq
      by (rewrite length_alter, length_app; simpl; lia).
    reflexivity.
  - rewrite !produced_headers_spec, Hm, Hres, Hdflt. reflexivity.
Qed.

End TwoInvocations.

(** ** Configuration-time claims *)

Module StrFacts.

Import Str.

#[global] Instance le_total : Total le.
Proof. intros s1 s2. apply String.leb_total. Qed.

Lemma compare_lt_trans s1 s2 s3 :
  String.compare s1 s2 = Lt -> String.compare s2 s3 = Lt ->
  String.compare s1 s3 = Lt.
Proof.
  revert s2 s3. induction s1 as [| c1 s1 IH]; intros [| c2 s2] [| c3 s3];
    simpl; try discriminate; try reflexivity.
  unfold Ascii.compare.
  destruct (N.compare_spec (N_of_ascii c1) (N_of_ascii c2))
    as [E12 | L12 | G12]; try discriminate;
    destruct (N.compare_spec (N_of_ascii c2) (N_of_ascii c3))
      as [E23 | L23 | G23]; try discriminate; intros H12 H23.
  - rewrite E12, E23, N.compare_refl. eapply IH; eassumption.
  - rewrite E12. apply N.compare_lt_iff in L23. rewrite L23. reflexivity.
  - rewrite <- E23. apply N.compare_lt_iff in L12. rewrite L12. reflexivity.
  - assert (L13 : (N_of_ascii c1 < N_of_ascii c3)%N) by lia.
    apply N.compare_lt_iff in L13. rewrite L13. reflexivity.
Qed.

#[global] Instance le_trans : Transitive le.
Proof.
  intros s1 s2 s3. unfold le, String.leb.
  destruct (String.compare s1 s2) eqn:E12; try discriminate; intros _;
    destruct (String.compare s2 s3) eqn:E23; try discriminate; intros _.
  - apply String.compare_eq_iff in E12. subst. rewrite E23. reflexivity.
  - apply String.compare_eq_iff in E12. subst. rewrite E23. reflexivity.
  - apply String.compare_eq_iff in E23. subst. rewrite E12. reflexivity.
  - rewrite (compare_lt_trans _ _ _ E12 E23). reflexivity.
Qed.

(** [sorted] returns its argument rearranged in ascending order. *)
Lemma sorted_spec (l : list string) :
  StronglySorted le (sorted l) /\ Permutation (sorted l) l.
Proof.
  split.
  - apply StronglySorted_merge_sort; apply _.
  - apply merge_sort_Permutation.
Qed.

End StrFacts.

Module ConfigFacts.

Import Config.

Lemma each_item_str (l : list string) : each item (map PyStr l) = Ok l.
Proof.
  induction l as [| s l IH]; simpl; [reflexivity |].
  rewrite IH. reflexivity.
Qed.

Lemma each_upper_str (l : list string) :
  each upper (map PyStr l) = Ok (map Str.upper l).
Proof.
  induction l as [| s l IH]; simpl; [reflexivity |].
  rewrite IH. reflexivity.
Qed.

Lemma each_item_inv (l : list pyval) (ss : list string) :
  each item l = Ok ss -> l = map PyStr ss.
Proof.
  revert ss. induction l as [| x l IH]; simpl; intros ss H.
  - injection H as <-. reflexivity.
  - destruct x; try discriminate H. simpl in H.
    destruct (each item l) as [ss' |]; [| discriminate H].
    injection H as <-. simpl. rewrite (IH ss' eq_refl). reflexivity.
Qed.

(** What is left of [crossdomain] once [methods] and [headers] went
    through. *)
Lemma crossdomain_inv o ms hs ma a b p :
  crossdomain o ms hs ma a b = Ok p ->
  exists ms' hs' o',
    normalise_methods ms = Ok ms' /\
    normalise_headers hs = Ok hs' /\
    normalise_origin o = Ok o' /\
    p = Policy o' ms' hs' (normalise_max_age ma) a b.
Proof.
  unfold crossdomain. intros H.
  destruct (normalise_methods ms) as [ms' |]; [| discriminate H].
  destruct (normalise_headers hs) as [hs' |]; [| discriminate H].
  destruct (normalise_origin o) as [o' |]; [| discriminate H].
  simpl in H. injection H as <-. eauto 10.
Qed.

Lemma crossdomain_raises_of_origin o ms hs ma a b e :
  normalise_origin o = Raise e ->
  exists e', crossdomain o ms hs ma a b = Raise e'.
Proof.
  unfold crossdomain. intros H.
  destruct (normalise_methods ms); [| simpl; eauto].
  destruct (normalise_headers hs); [| simpl; eauto].
  rewrite H. simpl. eauto.
Qed.

(** C8. [crossdomain] called with its default origin [None], or with any
    origin that is neither a string nor iterable, raises, whatever the
    other arguments, because [', '.join(origin)] raises [TypeError]: no
    policy exists, hence no decorator and no wrapper. A call that
    returned had a string, or a sequence of strings, for its origin. *)
Theorem crossdomain_requires_origin :
  (forall ms hs ma a b,
      exists e, crossdomain default_origin ms hs ma a b = Raise e) /\
  (forall o ms hs ma a b,
      is_basestring o = false -> is_iterable o = false ->
      normalise_origin o = Raise TypeError /\
      exists e, crossdomain o ms hs ma a b = Raise e) /\
  (forall o ms hs ma a b p,
      crossdomain o ms hs ma a b = Ok p ->
      (exists s, o = PyStr s /\ origin p = s) \/
      (exists l, o = PyList (map PyStr l) /\ origin p = Str.join ", " l)).
Proof.
  split; [| split].
  - intros. apply crossdomain_raises_of_origin with (e := TypeError).
    reflexivity.
  - intros o ms hs ma a b Hs Hi.
    assert (H : normalise_origin o = Raise TypeError)
      by (destruct o; try discriminate; reflexivity).
    split; [exact H |].
    eapply crossdomain_raises_of_origin, H.
  - intros o ms hs ma a b p H.
    apply crossdomain_inv in H as (ms' & hs' & o' & _ & _ & Ho & ->).
    simpl. destruct o as [| c | z | s | l]; try discriminate Ho.
    + left. exists s. injection Ho as <-. auto.
    + right. unfold normalise_origin, join in Ho. simpl in Ho.
      destruct (each item l) as [ss |] eqn:Hss; [| discriminate Ho].
      simpl in Ho. injection Ho as <-.
      exists ss. split; [| reflexivity].
      f_equal. apply each_item_inv, Hss.
Qed.

(** C10. Of a call that returns: a [headers] string is kept as it is,
    neither uppercased nor joined; a sequence of header names is
    uppercased name by name and joined with [", "] in the given order; a
    sequence of method names is uppercased, put in ascending order (the
    bytewise order of [str], alphabetical on uppercase names) and
    joined. *)
Theorem headers_verbatim_methods_sorted o ms hs ma a b p :
  crossdomain o ms hs ma a b = Ok p ->
  (forall s, hs = PyStr s -> headers p = Some s) /\
  (forall l, hs = PyList (map PyStr l) ->
     headers p = Some (Str.join ", " (map Str.upper l))) /\
  (forall l, ms = PyList (map PyStr l) ->
     exists l',
       methods p = Some (Str.join ", " l') /\
       StronglySorted Str.le l' /\
       Permutation l' (map Str.upper l)).
Proof.
  intros H.
  apply crossdomain_inv in H as (ms' & hs' & o' & Hms & Hhs & _ & ->).
  simpl. split; [| split].
  - intros s ->. injection Hhs as <-. reflexivity.
  - intros l ->. unfold normalise_headers, join_upper in Hhs. simpl in Hhs.
    rewrite each_upper_str in Hhs. simpl in Hhs. injection Hhs as <-.
    reflexivity.
  - intros l ->. unfold normalise_methods, join_sorted_upper in Hms.
    simpl in Hms. rewrite each_upper_str in Hms. simpl in Hms.
    injection Hms as <-.
    exists (Str.sorted (map Str.upper l)).
    split; [reflexivity |]. apply StrFacts.sorted_spec.
Qed.

End ConfigFacts.

(** ** Decoration-time claims *)

Module DecorationFacts.

Import Decoration.

Lemma getattr_setattr name v fn : getattr (setattr name v fn) name = Some v.
Proof. unfold getattr, setattr. simpl. apply lookup_insert_eq. Qed.

(** What [decorator] returns and the function store it leaves. *)
Lemma decorator_spec p (f : loc) (fs : fstore) (fn : function) :
  fs !! f = Some fn ->
  let f' := setattr "provide_automatic_options" (PyBool false) fn in
  let w' := Function (func_module f') (func_name f') (func_doc f')
                     (func_dict f' ∪ ∅) (WrappedFunction p f) in
  decorator p f fs =
  Ok (length fs,
      <[length fs := w']>
        (<[f := f']> fs ++ [def_wrapped_function p f])%list).
Proof.
  intros Hf. pose proof (lookup_lt_Some _ _ _ Hf) as Hlt.
  unfold decorator, update_wrapper. rewrite Hf.
  rewrite list_lookup_alter_ne by lia.
  rewrite list_lookup_middle by reflexivity.
  rewrite list_lookup_alter_eq, lookup_app_l, Hf by exact Hlt.
  simpl. do 3 f_equal.
  rewrite alter_app_l by exact Hlt. f_equal.
  apply list_eq. intros i. destruct (decide (i = f)) as [-> |].
  - rewrite list_lookup_alter_eq, list_lookup_insert_eq, Hf by exact Hlt.
    reflexivity.
  - rewrite list_lookup_alter_ne, list_lookup_insert_ne by congruence.
    reflexivity.
Qed.


End DecorationFacts.

(** ** [Access-Control-Max-Age] *)

Module MaxAgeFacts.

Lemma occurs_app c s1 s2 :
  occurs c (s1 ++ s2) = occurs c s1 || occurs c s2.
Proof.
  induction s1 as [| c' s1 IH]; simpl; [reflexivity |].
  rewrite IH. apply orb_assoc.
Qed.

Lemma float_mark_app s1 s2 :
  float_mark (s1 ++ s2) = float_mark s1 || float_mark s2.
Proof.
  unfold float_mark. rewrite !occurs_app.
  destruct (occurs "." s1), (occurs "e" s1), (occurs "n" s1),
    (occurs "." s2), (occurs "e" s2), (occurs "n" s2); reflexivity.
Qed.

Lemma float_mark_format precision ds decpt :
  float_mark (PyFloat.format_digits precision ds decpt) = true.
Proof.
  unfold PyFloat.format_digits.
  destruct (_ || _); [| destruct (decpt <=? 0); [| destruct (decpt <? _)]];
    rewrite !float_mark_app;
    change (float_mark "e") with true; change (float_mark ".") with true;
    change (float_mark "0.") with true; change (float_mark ".0") with true;
    rewrite ?orb_true_r; reflexivity.
Qed.

(** [str] of a float always shows that it is one. *)
Lemma float_mark_str x : float_mark (PyFloat.str x) = true.
Proof.
  destruct x as [s | s | | s m e]; simpl.
  - destruct s; reflexivity.
  - destruct s; reflexivity.
  - reflexivity.
  - destruct (match e with Z0 => _ | Zpos _ => _ | Zneg _ => _ end) as [n d].
    destruct (PyFloat.dtoa 12 n d) as [ds decpt].
    rewrite float_mark_app, float_mark_format. apply orb_true_r.
Qed.

Lemma float_mark_uint d : float_mark (NilEmpty.string_of_uint d) = false.
Proof.
  unfold float_mark.
  induction d as [| d IH | d IH | d IH | d IH | d IH | d IH | d IH | d IH
                  | d IH | d IH]; simpl in *; try reflexivity; exact IH.
Qed.

(** [str] of an integer never does. *)
Lemma float_mark_str_int z : float_mark (str_int z) = false.
Proof.
  unfold str_int, NilZero.string_of_int, NilZero.string_of_uint.
  destruct (Z.to_int z) as [d | d]; destruct d; try reflexivity;
    match goal with
    | |- float_mark (NilEmpty.string_of_uint ?d) = false =>
        apply (float_mark_uint d)
    | |- float_mark (String "-" (NilEmpty.string_of_uint ?d)) = false =>
        apply (float_mark_uint d)
    end.
Qed.

Lemma str_float_not_int x z : PyFloat.str x <> str_int z.
Proof.
  intros H. pose proof (float_mark_str x) as Hx.
  rewrite H, float_mark_str_int in Hx. discriminate Hx.
Qed.

(** C5. On the failing input: for [max_age=timedelta(seconds=21600)] the
    policy holds the float [21600.0], and a GET request gets
    [Access-Control-Max-Age: 21600.0], not the integer rendering
    [21600]. More generally no [timedelta] is rendered as an integer,
    while an integer [max_age] is rendered as one. *)
Theorem max_age_timedelta_renders_float :
  (exists p,
      Config.crossdomain (PyStr "*") PyNone PyNone
        (MaxAgeDelta (Timedelta 0 21600 0)) true true = Ok p /\
      produced_headers p App.route_a tt [] =
      Some (Some "*", Some "HEAD, OPTIONS, GET", Some "21600.0", None)) /\
  str_int 21600 = "21600" /\
  (forall td z,
      str_number (Config.normalise_max_age (MaxAgeDelta td)) <> str_int z) /\
  (forall z, str_number (Config.normalise_max_age (MaxAgeInt z)) = str_int z).
Proof.
  split; [| split; [| split]].
  - eexists. split; [reflexivity |]. vm_compute. reflexivity.
  - reflexivity.
  - intros td z. apply str_float_not_int.
  - reflexivity.
Qed.

End MaxAgeFacts.

(** ** The claims on a small application *)

Module Examples.

Import Decoration App.

Example crossdomain_open :
  Config.crossdomain (PyStr "*") PyNone PyNone (MaxAgeInt 21600) true true
  = Ok open_policy.
Proof. reflexivity. Qed.

Example crossdomain_preflight :
  Config.crossdomain (PyStr "*") (PyList [PyStr "post"; PyStr "get"])
    (PyList [PyStr "x-requested-with"]) (MaxAgeInt 21600) false true
  = Ok preflight_policy.
Proof. reflexivity. Qed.

Example crossdomain_origins :
  Config.crossdomain
    (PyList [PyStr "http://a.example"; PyStr "http://b.example"])
    (PyStr "get") (PyStr "x-b") (MaxAgeInt 5) true false
  = Ok (Policy "http://a.example, http://b.example" (Some "E, G, T")
               (Some "x-b") (NumInt 5) true false).
Proof. reflexivity. Qed.

Example crossdomain_defaults :
  Config.crossdomain Config.default_origin Config.default_methods
    Config.default_headers Config.default_max_age
    Config.default_attach_to_all Config.default_automatic_options
  = Raise TypeError.
Proof. reflexivity. Qed.

Example get_open :
  run route_a (wrapped_function open_policy tt) [] =
  (Ok 0%nat,
   [Response.Make 200 "ok"
      [("Content-Type", "text/html");
       ("Access-Control-Allow-Origin", "*");
       ("Access-Control-Allow-Methods", "HEAD, OPTIONS, GET");
       ("Access-Control-Max-Age", "21600")];
    Response.Make 200 "" [("Allow", "HEAD, OPTIONS, GET")]],
   [TRequestMethod; TCallView; TMakeResponse; THeadersSet;
    TMakeDefaultOptionsResponse; THeadersGet; THeadersSet; THeadersSet]).
Proof. reflexivity. Qed.

Example options_preflight :
  run preflight (wrapped_function preflight_policy tt) [] =
  (Ok 0%nat,
   [Response.Make 200 ""
      [("Allow", "HEAD, OPTIONS, GET");
       ("Access-Control-Allow-Origin", "*");
       ("Access-Control-Allow-Methods", "GET, POST");
       ("Access-Control-Max-Age", "21600");
       ("Access-Control-Allow-Headers", "X-REQUESTED-WITH")]],
   [TRequestMethod; TMakeDefaultOptionsResponse; TRequestMethod;
    THeadersSet; THeadersSet; THeadersSet; THeadersSet]).
Proof. reflexivity. Qed.

Example float_strings :
  map (fun td => PyFloat.str (total_seconds td))
      [Timedelta 0 0 0; Timedelta 0 1 500000; Timedelta 0 0 10;
       Timedelta 1 0 0; Timedelta 999999999 86399 999999;
       Timedelta (-1) 86399 0]
  = ["0.0"; "1.5"; "1e-05"; "86400.0"; "8.64e+13"; "-1.0"].
Proof. vm_compute. reflexivity. Qed.

(** *** The theorems at work

    Each theorem with a hypothesis, applied to the application above. *)

(** The preflight request for [/a] under [open_policy]. *)
Lemma automatic_options_skips_view_witness :
  automatic_options open_policy = true /\
  fw_method preflight = "OPTIONS" /\
  exists res st' tr,
    run preflight (wrapped_function open_policy tt) [] = (res, st', tr) /\
    ~ In TCallView tr /\
    In TMakeDefaultOptionsResponse tr /\
    match allow_methods open_policy preflight with
    | Some m =>
        res = Ok (length ([] : store)) /\
        st' !! length ([] : store) =
        Some (attach open_policy m (fw_default_options preflight)) /\
        forall l : loc,
          (l < length ([] : store))%nat -> st' !! l = ([] : store) !! l
    | None => res = Raise KeyError
    end.
Proof.
  split; [reflexivity |]. split; [reflexivity |].
  apply (automatic_options_skips_view open_policy preflight tt []);
    reflexivity.
Defined.

(** GET [/a] under [open_policy]. *)
Lemma get_attach_to_all_allow_origin_witness :
  fw_method route_a = "GET" /\
  attach_to_all open_policy = true /\
  exists st' tr resp,
    run route_a (wrapped_function open_policy tt) [] = (Ok 0%nat, st', tr) /\
    st' !! 0%nat = Some resp /\
    Headers.get (Response.headers resp) ACAO = Some "*".
Proof.
  split; [reflexivity |]. split; [reflexivity |].
  destruct (get_attach_to_all_allow_origin open_policy route_a tt []
              eq_refl eq_refl) as [Hsafe Hlive].
  destruct (Hlive 0%nat _ _ _ eq_refl eq_refl eq_refl) as (st' & tr & Hrun).
  destruct (Hsafe _ _ _ Hrun) as (resp & Hresp & Horigin).
  exists st', tr, resp. auto.
Defined.

(** GET [/a] under [preflight_policy]: the response of the view as it is. *)
Lemma attach_to_all_false_returns_unmodified_witness :
  attach_to_all preflight_policy = false /\
  fw_method route_a <> "OPTIONS" /\
  exists tr,
    run route_a (wrapped_function preflight_policy tt) [] =
    (Ok 0%nat,
     [Response.Make 200 "ok" [("Content-Type", "text/html")]], tr) /\
    ~ In THeadersSet tr /\
    ~ In TMakeDefaultOptionsResponse tr.
Proof.
  split; [reflexivity |]. split; [discriminate |].
  apply (attach_to_all_false_returns_unmodified preflight_policy route_a
           tt []); [reflexivity | discriminate].
Defined.

(** GET [/b] under [open_policy]: the methods of the route. *)
Lemma allow_methods_configured_or_default_witness :
  (attach_to_all open_policy = true \/ fw_method route_b = "OPTIONS") /\
  exists r st' tr resp,
    run route_b (wrapped_function open_policy tt) [] = (Ok r, st', tr) /\
    st' !! r = Some resp /\
    Headers.get (Response.headers resp) ACAM =
    Some "HEAD, OPTIONS, POST, GET" /\
    In TMakeDefaultOptionsResponse tr /\ In THeadersGet tr.
Proof.
  split; [left; reflexivity |].
  destruct (allow_methods_configured_or_default open_policy route_b tt []
              0%nat _ _ (or_introl eq_refl) eq_refl)
    as (resp & Hresp & Hallow & Hasked & Hread).
  eexists _, _, _, resp. split; [reflexivity |]. auto.
Defined.

(** The view that sets [Access-Control-Allow-Headers] itself. *)
Lemma allow_headers_assigned_iff_configured_witness :
  exists r st' tr resp st1 r0,
    run view_with_allow_headers (wrapped_function open_policy tt) [] =
    (Ok r, st', tr) /\
    st' !! r = Some resp /\
    produce open_policy view_with_allow_headers tt [] = (Ok r, st1) /\
    st1 !! r = Some r0 /\
    Headers.get (Response.headers resp) ACAH =
    Headers.get (Response.headers r0) ACAH.
Proof.
  destruct (allow_headers_assigned_iff_configured open_policy
              view_with_allow_headers tt [] 0%nat _ _ _ eq_refl eq_refl)
    as (st1 & r0 & Hp & Hr0 & Hh).
  eexists _, _, _, _, st1, r0. split; [reflexivity |].
  split; [reflexivity |]. auto.
Defined.

(** [index] decorated once, then two GET requests for [/a] that start from
    different stores. *)
Lemma policy_fixed_same_headers_witness :
  exists w fs',
    decorator open_policy 0%nat [index] = Ok (w, fs') /\
    closure_policy fs' w = Some open_policy /\
    produced_headers open_policy route_a tt [] =
    produced_headers open_policy route_a tt
      [Response.Make 404 "" []; Response.Make 200 "ok" []].
Proof.
  eexists _, _. split; [reflexivity |].
  apply (policy_fixed_same_headers open_policy 0%nat [index] _ _
           route_a route_a tt tt); reflexivity.
Defined.

(** [crossdomain(methods=['get'])], [crossdomain(origin=8080)] and
    [crossdomain(origin='*')]. *)
Lemma crossdomain_requires_origin_witness :
  (exists e,
      Config.crossdomain Config.default_origin (PyList [PyStr "get"])
        PyNone (MaxAgeInt 21600) true true = Raise e) /\
  (Config.normalise_origin (PyInt 8080) = Raise TypeError /\
   exists e,
     Config.crossdomain (PyInt 8080) PyNone PyNone (MaxAgeInt 21600)
       true true = Raise e) /\
  ((exists s, PyStr "*" = PyStr s /\ origin open_policy = s) \/
   (exists l, PyStr "*" = PyList (map PyStr l) /\
              origin open_policy = Str.join ", " l)).
Proof.
  destruct ConfigFacts.crossdomain_requires_origin as (Hnone & Hother & Hok).
  split; [apply Hnone |]. split; [apply Hother; reflexivity |].
  apply (Hok (PyStr "*") PyNone PyNone (MaxAgeInt 21600) true true).
  reflexivity.
Defined.


(** The call that makes [preflight_policy]. *)
Lemma headers_verbatim_methods_sorted_witness :
  Config.crossdomain (PyStr "*") (PyList (map PyStr ["post"; "get"]))
    (PyList (map PyStr ["x-requested-with"])) (MaxAgeInt 21600) false true
  = Ok preflight_policy /\
  headers preflight_policy =
  Some (Str.join ", " (map Str.upper ["x-requested-with"])) /\
  exists l',
    methods preflight_policy = Some (Str.join ", " l') /\
    StronglySorted Str.le l' /\
    Permutation l' (map Str.upper ["post"; "get"]).
Proof.
  split; [reflexivity |].
  destruct (ConfigFacts.headers_verbatim_methods_sorted
              (PyStr "*") (PyList (map PyStr ["post"; "get"]))
              (PyList (map PyStr ["x-requested-with"])) (MaxAgeInt 21600)
              false true preflight_policy eq_refl)
    as (_ & Hheaders & Hmethods).
  split; [apply Hheaders; reflexivity | apply Hmethods; reflexivity].
Defined.

End Examples.

(** * Further properties of the code *)

(** ** [crossdomain]: which calls return, and how the others fail *)

Module ConfigMore.

Import Config.

Lemma each_upper_inv (l : list pyval) (us : list string) :
  each upper l = Ok us -> exists ss, l = map PyStr ss /\ us = map Str.upper ss.
Proof.
  revert us. induction l as [| x l IH]; simpl; intros us H.
  - injection H as <-. exists []. auto.
  - destruct x; try discriminate H. simpl in H.
    destruct (each upper l) as [us' |]; [| discriminate H].
    injection H as <-. destruct (IH us' eq_refl) as (ss & -> & ->).
    exists (s :: ss). auto.
Qed.

Lemma each_upper_non_string (l : list pyval) :
  has_non_string l -> each upper l = Raise AttributeError.
Proof.
  intros (x & Hin & Hx). induction l as [| y l IH]; [destruct Hin |].
  simpl. destruct y as [| c | z | s | l']; try reflexivity.
  simpl. destruct Hin as [<- | Hin]; [discriminate Hx |].
  rewrite (IH Hin). reflexivity.
Qed.

Lemma each_item_non_string (l : list pyval) :
  has_non_string l -> each item l = Raise TypeError.
Proof.
  intros (x & Hin & Hx). induction l as [| y l IH]; [destruct Hin |].
  simpl. destruct y as [| c | z | s | l']; try reflexivity.
  simpl. destruct Hin as [<- | Hin]; [discriminate Hx |].
  rewrite (IH Hin). reflexivity.
Qed.

Lemma iter_strings_inv (v : pyval) (l : list string) :
  iter v = Ok (map PyStr l) ->
  (exists s, v = PyStr s /\ l = Str.chars s) \/ v = PyList (map PyStr l).
Proof.
  destruct v as [| c | z | s | l']; simpl; try discriminate.
  - intros [= H]. left. exists s. split; [reflexivity |].
    revert H. generalize (Str.chars s). intros cs. revert l.
    induction cs as [| c cs IH]; intros [| x l]; simpl; try discriminate.
    + reflexivity.
    + intros [= <- H]. f_equal. apply IH, H.
  - intros [= ->]. right. reflexivity.
Qed.

Lemma normalise_methods_ok ms :
  (exists m, normalise_methods ms = Ok m) <->
  ms = PyNone \/ iterable_of_strings ms.
Proof.
  unfold normalise_methods, join_sorted_upper, iterable_of_strings. split.
  - intros [m H]. destruct ms as [| c | z | s | l]; simpl in H;
      try discriminate H; auto; right.
    + exists (Str.chars s). reflexivity.
    + destruct (each upper l) as [us |] eqn:Hl; [| discriminate H].
      destruct (each_upper_inv _ _ Hl) as (ss & -> & _). exists ss. reflexivity.
  - intros [-> | [l H]]; [eexists; reflexivity |].
    destruct ms as [| c | z | s | l']; simpl in H; try discriminate H;
      injection H as H; simpl; rewrite H, ConfigFacts.each_upper_str;
      eexists; reflexivity.
Qed.

Lemma normalise_headers_ok hs :
  (exists h, normalise_headers hs = Ok h) <->
  hs = PyNone \/ iterable_of_strings hs.
Proof.
  unfold normalise_headers, join_upper, iterable_of_strings. split.
  - intros [h H]. destruct hs as [| c | z | s | l]; simpl in H;
      try discriminate H; auto; right.
    + exists (Str.chars s). reflexivity.
    + destruct (each upper l) as [us |] eqn:Hl; [| discriminate H].
      destruct (each_upper_inv _ _ Hl) as (ss & -> & _). exists ss. reflexivity.
  - intros [-> | [l H]]; [eexists; reflexivity |].
    destruct hs as [| c | z | s | l']; simpl in H; try discriminate H;
      injection H as H; simpl; [eexists; reflexivity |].
    rewrite H, ConfigFacts.each_upper_str. eexists; reflexivity.
Qed.

Lemma normalise_origin_ok o :
  (exists s, normalise_origin o = Ok s) <-> iterable_of_strings o.
Proof.
  unfold normalise_origin, join, iterable_of_strings. split.
  - intros [s' H]. destruct o as [| c | z | s | l]; simpl in H;
      try discriminate H.
    + exists (Str.chars s). reflexivity.
    + destruct (each item l) as [ss |] eqn:Hl; [| discriminate H].
      rewrite (ConfigFacts.each_item_inv _ _ Hl). exists ss. reflexivity.
  - intros [l H].
    destruct o as [| c | z | s | l']; simpl in H; try discriminate H;
      injection H as H; simpl; [eexists; reflexivity |].
    rewrite H, ConfigFacts.each_item_str. eexists; reflexivity.
Qed.

(** X1. [crossdomain] returns a policy exactly when [methods] and
    [headers] are each [None] or an iterable of strings and [origin] is an
    iterable of strings (a string counts as one); [max_age] and the two
    flags never make it fail. *)
Theorem crossdomain_returns_iff o ms hs ma a b :
  (exists p, crossdomain o ms hs ma a b = Ok p) <->
  (ms = PyNone \/ iterable_of_strings ms) /\
  (hs = PyNone \/ iterable_of_strings hs) /\
  iterable_of_strings o.
Proof.
  rewrite <- normalise_methods_ok, <- normalise_headers_ok,
    <- normalise_origin_ok.
  unfold crossdomain. split.
  - intros [p H].
    destruct (normalise_methods ms) as [ms' |]; [| discriminate H].
    destruct (normalise_headers hs) as [hs' |]; [| discriminate H].
    destruct (normalise_origin o) as [o' |]; [| discriminate H].
    repeat split; eexists; reflexivity.
  - intros ([ms' ->] & [hs' ->] & [o' ->]). simpl. eexists; reflexivity.
Qed.

(** X2. The first failing argument decides the exception, in the order
    [methods], [headers], [origin]; a sequence with an item that is not a
    string raises [AttributeError] as [methods] or [headers] (from
    [x.upper()]) but [TypeError] as [origin] (from [join]). *)
Theorem crossdomain_item_errors (l : list pyval) o ms hs ma a b :
  has_non_string l ->
  crossdomain o (PyList l) hs ma a b = Raise AttributeError /\
  ((ms = PyNone \/ iterable_of_strings ms) ->
   crossdomain o ms (PyList l) ma a b = Raise AttributeError) /\
  ((ms = PyNone \/ iterable_of_strings ms) ->
   (hs = PyNone \/ iterable_of_strings hs) ->
   crossdomain (PyList l) ms hs ma a b = Raise TypeError).
Proof.
  intros Hl. unfold crossdomain. repeat split.
  - unfold normalise_methods, join_sorted_upper. simpl.
    rewrite (each_upper_non_string l Hl). reflexivity.
  - intros [ms' ->]%normalise_methods_ok.
    unfold normalise_headers, join_upper. simpl.
    rewrite (each_upper_non_string l Hl). reflexivity.
  - intros [ms' ->]%normalise_methods_ok [hs' ->]%normalise_headers_ok.
    unfold normalise_origin, join. simpl.
    rewrite (each_item_non_string l Hl). reflexivity.
Qed.

End ConfigMore.

(** ** [crossdomain]: what the method list depends on *)

Module MethodsMore.

Import Config.

#[global] Instance le_antisym : AntiSymm (=) Str.le.
Proof. intros s1 s2. apply String.leb_antisym. Qed.

(** Two lists with the same elements sort to the same list. *)
Lemma sorted_permutation (l1 l2 : list string) :
  Permutation l1 l2 -> Str.sorted l1 = Str.sorted l2.
Proof.
  intros H.
  destruct (StrFacts.sorted_spec l1) as [S1 P1].
  destruct (StrFacts.sorted_spec l2) as [S2 P2].
  apply (StronglySorted_unique Str.le); try assumption.
  rewrite P1, P2. exact H.
Qed.

(** X3. The method list of the policy does not depend on the order or on
    the case in which the methods are given: two sequences of names that
    are rearrangements of each other once uppercased give the same
    policy (or the same exception). *)
Theorem methods_order_and_case_irrelevant
    (l1 l2 : list string) o hs ma a b :
  Permutation (map Str.upper l1) (map Str.upper l2) ->
  crossdomain o (PyList (map PyStr l1)) hs ma a b =
  crossdomain o (PyList (map PyStr l2)) hs ma a b.
Proof.
  intros H. unfold crossdomain, normalise_methods, join_sorted_upper.
  simpl. rewrite !ConfigFacts.each_upper_str. simpl.
  rewrite (sorted_permutation _ _ H). reflexivity.
Qed.

Lemma length_append (s1 s2 : string) :
  String.length (s1 ++ s2) = (String.length s1 + String.length s2)%nat.
Proof. induction s1 as [| c s1 IH]; simpl; [| rewrite IH]; reflexivity. Qed.

Lemma length_join_chars (l : list string) :
  Forall (fun x => String.length x = 1%nat) l ->
  l <> [] ->
  String.length (Str.join ", " l) = (3 * length l - 2)%nat.
Proof.
  induction l as [| x l IH]; intros Hl Hne; [congruence |].
  inversion Hl as [| ? ? Hx Hl']; subst.
  destruct l as [| y l]; [simpl; rewrite Hx; reflexivity |].
  change (Str.join ", " (x :: y :: l))
    with (x ++ ", " ++ Str.join ", " (y :: l)).
  rewrite !length_append, Hx, IH by (assumption || discriminate).
  simpl. lia.
Qed.

Lemma chars_length (s : string) :
  Forall (fun x => String.length x = 1%nat) (map Str.upper (Str.chars s)) /\
  length (map Str.upper (Str.chars s)) = String.length s.
Proof.
  induction s as [| c s [IH1 IH2]]; simpl; split; auto.
Qed.

(** X4. A [methods] argument that is a single string is taken character
    by character: the method list of the policy consists of the
    uppercased characters of the string, in ascending order, and so is
    [3 * n - 2] characters long for a string of [n >= 1] characters (for
    ["get"], the list ["E, G, T"]). *)
Theorem methods_string_is_split (s : string) o hs ma a b p :
  crossdomain o (PyStr s) hs ma a b = Ok p ->
  exists l',
    methods p = Some (Str.join ", " l') /\
    StronglySorted Str.le l' /\
    Permutation l' (map Str.upper (Str.chars s)) /\
    (s <> "" ->
     String.length (Str.join ", " l') = (3 * String.length s - 2)%nat).
Proof.
  intros H.
  apply ConfigFacts.crossdomain_inv in H as (ms' & hs' & o' & Hms & _ & _ & ->).
  unfold normalise_methods, join_sorted_upper in Hms. simpl in Hms.
  rewrite ConfigFacts.each_upper_str in Hms. simpl in Hms.
  injection Hms as <-.
  destruct (StrFacts.sorted_spec (map Str.upper (Str.chars s))) as [HS HP].
  destruct (chars_length s) as [Hone Hlen].
  exists (Str.sorted (map Str.upper (Str.chars s))).
  split; [reflexivity |]. split; [exact HS |]. split; [exact HP |].
  intros Hne. rewrite length_join_chars.
  - rewrite (Permutation_length HP), Hlen. reflexivity.
  - eapply Permutation_Forall; [symmetry; exact HP | exact Hone].
  - intros Hnil. rewrite Hnil in HP. apply Permutation_nil in HP.
    destruct s; [congruence | discriminate HP].
Qed.

End MethodsMore.

(** ** [wrapped_function]: errors, frames and what it never does *)

Section RequestMore.

Context {Args RV : Type}.
Implicit Types (fw : framework Args RV) (p : policy) (st : store).
Implicit Types (args : Args).

Lemma not_automatic p fw :
  automatic_options p = false \/ fw_method fw <> "OPTIONS" ->
  automatic_options p && is_options fw = false.
Proof.
  unfold is_options. intros [-> | H%String.eqb_neq]; [reflexivity |].
  rewrite H. apply andb_false_r.
Qed.

(** X5. When the policy has a method list, and the request is not an
    OPTIONS request answered by the framework, the wrapper never builds a
    default OPTIONS response and never reads a header: the method list of
    the policy is used as it is. *)
Theorem configured_methods_never_ask_framework p fw args st m res st' tr :
  methods p = Some m ->
  automatic_options p = false \/ fw_method fw <> "OPTIONS" ->
  run fw (wrapped_function p args) st = (res, st', tr) ->
  ~ In TMakeDefaultOptionsResponse tr /\ ~ In THeadersGet tr.
Proof.
  intros Hms Hna%not_automatic. rewrite run_wrapped_function.
  unfold produce, produce_trace, finish, finish_trace, allow_methods.
  rewrite Hna, Hms. unfold view_response.
  destruct (fw_view fw args st) as [[rv | e] st1].
  - destruct (fw_make_response fw rv st1) as [l st2].
    destruct (attaches p fw), (st2 !! l); intros [= _ _ <-];
      rewrite !in_app_iff;
      destruct (automatic_options p), (attach_to_all p), (headers p);
      simpl; intuition discriminate.
  - intros [= _ _ <-]. destruct (automatic_options p); simpl;
      intuition discriminate.
Qed.

(** X6. An exception of the view passes through the wrapper unchanged:
    the store is as the view left it, and the wrapper does nothing after
    the call, neither a coercion into a response nor an assignment. *)
Theorem view_exception_passes_through p fw args st e st1 :
  automatic_options p = false \/ fw_method fw <> "OPTIONS" ->
  fw_view fw args st = (Raise e, st1) ->
  run fw (wrapped_function p args) st =
  (Raise e, st1,
   ((if automatic_options p then [TRequestMethod] else [])
    ++ [TCallView])%list).
Proof.
  intros Hna%not_automatic Hv. rewrite run_wrapped_function.
  unfold produce, produce_trace, view_response. rewrite Hna, Hv. reflexivity.
Qed.

(** X7. An OPTIONS request always gets the headers, whatever
    [attach_to_all] is; and under [automatic_options=False] it is the
    view that answers it. *)
Theorem options_always_attached p fw args st (r : loc) st' tr :
  fw_method fw = "OPTIONS" ->
  run fw (wrapped_function p args) st = (Ok r, st', tr) ->
  (exists resp,
      st' !! r = Some resp /\
      Headers.get (Response.headers resp) ACAO = Some (origin p) /\
      Headers.get (Response.headers resp) ACAM = allow_methods p fw /\
      Headers.get (Response.headers resp) ACMA =
      Some (str_number (max_age p))) /\
  (automatic_options p = false ->
   In TCallView tr /\ fst (view_response fw args st) = Ok r).
Proof.
  intros Hm Hrun.
  assert (Hatt : attaches p fw = true) by (apply attaches_true; auto).
  destruct (returned_response _ _ _ _ _ _ _ Hrun) as (st1 & Hp & H).
  rewrite Hatt in H. destruct H as (r0 & m & Hr0 & Hallow & _ & Hr).
  split.
  - exists (attach p m r0). rewrite attach_origin, attach_methods,
      attach_max_age, Hallow. auto.
  - intros Hauto. revert Hrun Hp. rewrite run_wrapped_function.
    unfold produce, produce_trace, view_response. rewrite Hauto. simpl.
    destruct (fw_view fw args st) as [[rv | e] st2]; [| discriminate].
    destruct (fw_make_response fw rv st2) as [l st3].
    intros [= _ <-] [= -> _]. simpl. auto.
Qed.


(** X9. When the policy has no method list and the default OPTIONS
    response has no [Allow] header, the wrapper raises [KeyError] after it
    has assigned [Access-Control-Allow-Origin]: the response object is
    left with that one assignment made and the other three not. *)
Theorem missing_allow_raises_after_origin
    p fw args st (r : loc) st1 (r0 : Response.t) :
  methods p = None ->
  Headers.get (Response.headers (fw_default_options fw)) "allow" = None ->
  attach_to_all p = true \/ fw_method fw = "OPTIONS" ->
  produce p fw args st = (Ok r, st1) ->
  st1 !! r = Some r0 ->
  exists st' tr,
    run fw (wrapped_function p args) st = (Raise KeyError, st', tr) /\
    st' !! r = Some (Response.set_header r0 ACAO (origin p)) /\
    occurrences THeadersSet tr = 1%nat.
Proof.
  intros Hms Hallow Hatt%attaches_true Hp Hr0.
  rewrite run_wrapped_function, Hp.
  unfold finish, finish_trace, allow_methods, garbage.
  rewrite Hatt, Hr0, Hms, Hallow.
  eexists _, _. split; [reflexivity |]. split.
  - pose proof (lookup_lt_Some _ _ _ Hr0) as Hlt.
    rewrite lookup_app_l by (rewrite length_insert; exact Hlt).
    apply list_lookup_insert_eq, Hlt.
  - revert Hp. unfold produce, produce_trace, view_response.
    destruct (automatic_options p && is_options fw);
      [| destruct (fw_view fw args st) as [[rv | e] st2]; [| discriminate]];
      intros _; destruct (automatic_options p), (attach_to_all p);
      reflexivity.
Qed.

(** X10. An automatic OPTIONS answer under a policy without a method list
    builds the default OPTIONS response twice: the first object gets the
    headers and is returned, the second is only read for its [Allow]
    header and left behind. *)
Theorem automatic_options_builds_default_twice p fw args st m :
  automatic_options p = true ->
  fw_method fw = "OPTIONS" ->
  methods p = None ->
  Headers.get (Response.headers (fw_default_options fw)) "allow" = Some m ->
  exists tr,
    run fw (wrapped_function p args) st =
    (Ok (length st),
     (st ++ [attach p m (fw_default_options fw); fw_default_options fw])%list,
     tr) /\
    occurrences TMakeDefaultOptionsResponse tr = 2%nat.
Proof.
  intros Hauto Hm Hms Hallow.
  destruct (produce_default p fw args st Hauto Hm) as [Hp Ht].
  assert (Hatt : attaches p fw = true) by (apply attaches_true; auto).
  rewrite run_wrapped_function, Hp, Ht.
  unfold finish, finish_trace, allow_methods, garbage.
  rewrite Hatt, Hms, Hallow, list_lookup_middle by reflexivity.
  eexists. split.
  - rewrite insert_app_r_alt, Nat.sub_diag by lia. simpl.
    rewrite <- app_assoc. reflexivity.
  - destruct (attach_to_all p), (headers p); reflexivity.
Qed.

End RequestMore.

(** ** The header assignments: one entry each, and stable *)

Module HeadersMore.

Import Headers.


Lemma same_key_trans_false k0 k k' :
  same_key k0 k' = true -> same_key k k' = false -> same_key k0 k = false.
Proof.
  unfold same_key. intros H%String.eqb_eq. rewrite H, String.eqb_sym. trivial.
Qed.

Lemma count_remove_same h k : header_count (remove h k) k = O.
Proof.
  induction h as [| [k0 v0] h IH]; [reflexivity |]. simpl.
  destruct (same_key k0 k) eqn:E; simpl; [exact IH |]. rewrite E. exact IH.
Qed.

Lemma count_remove_other h k k' :
  same_key k k' = false ->
  header_count (remove h k) k' = header_count h k'.
Proof.
  intros Hk. induction h as [| [k0 v0] h IH]; [reflexivity |]. simpl.
  destruct (same_key k0 k) eqn:E; simpl.
  - rewrite (HeadersFacts.same_key_other _ _ _ E Hk). exact IH.
  - rewrite IH. reflexivity.
Qed.

(** After an assignment there is one entry under the key. *)
Lemma count_set_same h k v : header_count (set h k v) k = 1%nat.
Proof.
  induction h as [| [k0 v0] h IH]; simpl.
  - rewrite HeadersFacts.same_key_refl. reflexivity.
  - destruct (same_key k0 k) eqn:E; simpl.
    + rewrite HeadersFacts.same_key_refl, count_remove_same. reflexivity.
    + rewrite E. exact IH.
Qed.

Lemma count_set_other h k v k' :
  same_key k k' = false ->
  header_count (set h k v) k' = header_count h k'.
Proof.
  intros Hk. induction h as [| [k0 v0] h IH]; simpl.
  - rewrite Hk. reflexivity.
  - destruct (same_key k0 k) eqn:E; simpl.
    + rewrite Hk, (HeadersFacts.same_key_other _ _ _ E Hk).
      apply count_remove_other, Hk.
    + rewrite IH. reflexivity.
Qed.






End HeadersMore.

Section AttachMore.

Implicit Types (p : policy) (r : Response.t).




Lemma attach_counts p m r :
  header_count (Response.headers (attach p m r)) ACAO = 1%nat /\
  header_count (Response.headers (attach p m r)) ACAM = 1%nat /\
  header_count (Response.headers (attach p m r)) ACMA = 1%nat /\
  (headers p <> None ->
   header_count (Response.headers (attach p m r)) ACAH = 1%nat).
Proof.
  unfold attach. destruct (headers p) as [hs |]; simpl;
    repeat split; try congruence; intros;
    rewrite ?(HeadersMore.count_set_other _ ACAH),
      ?(HeadersMore.count_set_other _ ACMA),
      ?(HeadersMore.count_set_other _ ACAM) by reflexivity;
    apply HeadersMore.count_set_same.
Qed.

End AttachMore.

Section RequestHeaders.

Context {Args RV : Type}.
Implicit Types (fw : framework Args RV) (p : policy) (st : store).
Implicit Types (args : Args).

(** X11. A response returned with the headers attached has exactly one
    entry for each header the wrapper assigns, whatever entries the
    response it started from had under these names, in any case or
    number: the view's own CORS headers are replaced, not added to. *)
Theorem attached_headers_are_single p fw args st (r : loc) st' tr :
  attach_to_all p = true \/ fw_method fw = "OPTIONS" ->
  run fw (wrapped_function p args) st = (Ok r, st', tr) ->
  exists resp,
    st' !! r = Some resp /\
    header_count (Response.headers resp) ACAO = 1%nat /\
    header_count (Response.headers resp) ACAM = 1%nat /\
    header_count (Response.headers resp) ACMA = 1%nat /\
    (headers p <> None ->
     header_count (Response.headers resp) ACAH = 1%nat).
Proof.
  intros Hatt%attaches_true Hrun.
  destruct (returned_response _ _ _ _ _ _ _ Hrun) as (st1 & _ & H).
  rewrite Hatt in H. destruct H as (r0 & m & _ & _ & _ & Hr).
  exists (attach p m r0). split; [exact Hr | apply attach_counts].
Qed.


End RequestHeaders.

(** ** [decorator]: what the wrapper inherits *)

Module DecorationMore.

Import Decoration.


(** X14. Decorating a decorated function works again: the outer wrapper
    is closed over the inner one and the outer policy, the inner wrapper
    keeps its own policy, the name is still that of the view, and all
    three function objects have [provide_automatic_options] set to
    [False]. *)
Theorem decorator_stacks
    p1 p2 (f : loc) (fs : fstore) (fn : function) (w1 : loc) (fs1 : fstore) :
  fs !! f = Some fn ->
  decorator p1 f fs = Ok (w1, fs1) ->
  exists (w2 : loc) (fs2 : fstore) (wfn2 : function),
    decorator p2 w1 fs1 = Ok (w2, fs2) /\
    fs2 !! w2 = Some wfn2 /\
    func_code wfn2 = WrappedFunction p2 w1 /\
    func_name wfn2 = func_name fn /\
    closure_policy fs2 w1 = Some p1 /\
    (forall g fg, g = f \/ g = w1 \/ g = w2 -> fs2 !! g = Some fg ->
       getattr fg "provide_automatic_options" = Some (PyBool false)).
Proof.
  intros Hf. pose proof (lookup_lt_Some _ _ _ Hf) as Hlt.
  rewrite (DecorationFacts.decorator_spec p1 f fs fn Hf). cbv zeta.
  intros [= <- <-].
  set (f' := setattr "provide_automatic_options" (PyBool false) fn).
  set (w1' := Function _ _ _ _ (WrappedFunction p1 f)).
  set (fs1 := <[length fs := w1']> _).
  assert (Hlen : length fs1 = S (length fs)).
  { unfold fs1. rewrite length_insert, length_app, length_insert.
    simpl. lia. }
  assert (Hw1 : fs1 !! length fs = Some w1').
  { unfold fs1. apply list_lookup_insert_eq.
    rewrite length_app, length_insert. simpl. lia. }
  assert (Hf1 : fs1 !! f = Some f').
  { unfold fs1. rewrite list_lookup_insert_ne by lia.
    rewrite lookup_app_l by (rewrite length_insert; exact Hlt).
    apply list_lookup_insert_eq, Hlt. }
  rewrite (DecorationFacts.decorator_spec p2 (length fs) fs1 w1' Hw1).
  cbv zeta. rewrite Hlen.
  eexists _, _, _. split; [reflexivity |].
  assert (Hw2 : forall x (l : fstore) y,
             length l = S (length fs) ->
             (<[S (length fs) := x]> (l ++ [y])%list : fstore)
               !! S (length fs) = Some x).
  { intros x l y Hl. apply list_lookup_insert_eq.
    rewrite length_app. simpl. lia. }
  split; [apply Hw2; rewrite length_insert; exact Hlen |].
  split; [reflexivity |]. split; [reflexivity |]. split.
  - unfold closure_policy. rewrite list_lookup_insert_ne by lia.
    rewrite lookup_app_l by (rewrite length_insert; lia).
    rewrite list_lookup_insert_eq by lia. reflexivity.
  - intros g fg [-> | [-> | ->]].
    + rewrite list_lookup_insert_ne by lia.
      rewrite lookup_app_l by (rewrite length_insert; lia).
      rewrite list_lookup_insert_ne, Hf1 by lia.
      intros [= <-]. apply DecorationFacts.getattr_setattr.
    + rewrite list_lookup_insert_ne by lia.
      rewrite lookup_app_l by (rewrite length_insert; lia).
      rewrite list_lookup_insert_eq by lia.
      intros [= <-]. apply DecorationFacts.getattr_setattr.
    + rewrite Hw2 by (rewrite length_insert; exact Hlen).
      intros [= <-]. unfold getattr. simpl.
      rewrite (right_id ∅ (∪)). apply lookup_insert_eq.
Qed.

End DecorationMore.

(** ** [Access-Control-Max-Age] of an integer *)

(** X15. For an integer [max_age] the header value is the decimal numeral
    of that integer: read back as a decimal number, a returned response's
    [Access-Control-Max-Age] is the configured number of seconds. *)
Theorem max_age_integer_reads_back
    {Args RV : Type} (fw : framework Args RV) (p : policy) (args : Args)
    (st : store) (z : Z) (r : loc) (st' : store) (tr : list tag) :
  max_age p = NumInt z ->
  attach_to_all p = true \/ fw_method fw = "OPTIONS" ->
  run fw (wrapped_function p args) st = (Ok r, st', tr) ->
  exists resp v,
    st' !! r = Some resp /\
    Headers.get (Response.headers resp) ACMA = Some v /\
    Z.of_int <$> NilZero.int_of_string v = Some z.
Proof.
  intros Hz Hatt Hrun.
  destruct (max_age_header p fw args st r st' tr Hatt Hrun)
    as (resp & Hresp & Hv).
  exists resp, (str_int z). rewrite Hv, Hz. simpl.
  split; [exact Hresp |]. split; [reflexivity |].
  unfold str_int. rewrite NilZero.isi.
  - simpl. f_equal. apply DecimalZ.of_to.
  - destruct z as [| q | q]; try discriminate. intros [= H].
    exact (DecimalPos.Unsigned.to_uint_nonnil q H).
  - destruct z as [| q | q]; try discriminate. intros [= H].
    exact (DecimalPos.Unsigned.to_uint_nonnil q H).
Qed.

(** ** Two decorators on one view *)

Section Stacked.

Context {Args RV : Type}.
Implicit Types (fw : framework Args RV) (p : policy) (st : store).
Implicit Types (args : Args).

(** X16. When a view is decorated twice and both wrappers attach their
    headers, the response carries the origin, the methods and the max age
    of the outer policy; but the [Access-Control-Allow-Headers] of the
    inner policy stay when the outer policy has none. *)
Theorem stacked_outer_wins_inner_headers_stay
    (outer inner : policy) fw args st (r : loc) st' tr hs :
  attach_to_all outer = true ->
  attach_to_all inner = true ->
  fw_method fw <> "OPTIONS" ->
  headers outer = None ->
  headers inner = Some hs ->
  run (decorated_view fw inner) (wrapped_function outer args) st
  = (Ok r, st', tr) ->
  exists resp,
    st' !! r = Some resp /\
    Headers.get (Response.headers resp) ACAO = Some (origin outer) /\
    Headers.get (Response.headers resp) ACAM = allow_methods outer fw /\
    Headers.get (Response.headers resp) ACMA =
    Some (str_number (max_age outer)) /\
    Headers.get (Response.headers resp) ACAH = Some hs.
Proof.
  intros Ho Hi Hm Hho Hhi Hrun.
  assert (Hatt : forall p, attach_to_all p = true ->
            attaches p (decorated_view fw inner) = true /\
            attaches p fw = true).
  { intros p Hp. split; apply attaches_true; auto. }
  assert (Hna : forall p (g : framework Args loc),
            fw_method g = fw_method fw ->
            automatic_options p && is_options g = false).
  { intros p g Hg. apply not_automatic. right. rewrite Hg. exact Hm. }
  destruct (returned_response _ _ _ _ _ _ _ Hrun) as (st1 & Hp & H).
  rewrite (proj1 (Hatt outer Ho)) in H.
  destruct H as (r0 & m & Hr0 & Hallow & _ & Hr).
  exists (attach outer m r0). split; [exact Hr |].
  rewrite attach_origin, attach_methods, attach_max_age, attach_headers, Hho.
  repeat split; try reflexivity.
  - symmetry. exact Hallow.
  - revert Hp. unfold produce.
    rewrite (Hna outer (decorated_view fw inner) eq_refl).
    unfold view_response. simpl.
    destruct (run fw (wrapped_function inner args) st)
      as [[[l | e] st2] tr2] eqn:Hinner; [| discriminate].
    intros [= -> ->].
    destruct (returned_response _ _ _ _ _ _ _ Hinner) as (st0 & _ & H).
    rewrite (proj2 (Hatt inner Hi)) in H.
    destruct H as (r00 & m0 & _ & _ & _ & Hr').
    rewrite Hr0 in Hr'. injection Hr' as ->.
    rewrite attach_headers, Hhi. reflexivity.
Qed.

End Stacked.

(** ** The further properties on the small application *)

Module MoreExamples.

Import Decoration App AppMore.

(** [crossdomain(origin='*')] returns. *)
Lemma crossdomain_returns_iff_witness :
  exists p,
    Config.crossdomain (PyStr "*") PyNone PyNone (MaxAgeInt 21600) true true
    = Ok p.
Proof.
  apply (proj2 (ConfigMore.crossdomain_returns_iff (PyStr "*") PyNone PyNone
                  (MaxAgeInt 21600) true true)).
  split; [left; reflexivity |]. split; [left; reflexivity |].
  exists ["*"]. reflexivity.
Defined.

(** [crossdomain(origin='*', methods=['get', 7])] and its like. *)
Lemma crossdomain_item_errors_witness :
  Config.crossdomain (PyStr "*") (PyList [PyStr "get"; PyInt 7]) PyNone
    (MaxAgeInt 21600) true true = Raise AttributeError /\
  Config.crossdomain (PyStr "*") PyNone (PyList [PyStr "get"; PyInt 7])
    (MaxAgeInt 21600) true true = Raise AttributeError /\
  Config.crossdomain (PyList [PyStr "get"; PyInt 7]) PyNone PyNone
    (MaxAgeInt 21600) true true = Raise TypeError.
Proof.
  assert (H : has_non_string [PyStr "get"; PyInt 7])
    by (exists (PyInt 7); simpl; auto).
  destruct (ConfigMore.crossdomain_item_errors
              [PyStr "get"; PyInt 7] (PyStr "*") PyNone PyNone
              (MaxAgeInt 21600) true true H) as (H1 & H2 & H3).
  split; [exact H1 |]. split; [apply H2 | apply H3]; auto.
Defined.

(** [methods=['get', 'Post']] and [methods=['POST', 'GET']]. *)
Lemma methods_order_and_case_irrelevant_witness :
  Config.crossdomain (PyStr "*") (PyList (map PyStr ["get"; "Post"])) PyNone
    (MaxAgeInt 21600) true true =
  Config.crossdomain (PyStr "*") (PyList (map PyStr ["POST"; "GET"])) PyNone
    (MaxAgeInt 21600) true true.
Proof.
  apply (MethodsMore.methods_order_and_case_irrelevant
           ["get"; "Post"] ["POST"; "GET"]).
  simpl. apply perm_swap.
Defined.

(** [methods='get']. *)
Lemma methods_string_is_split_witness :
  exists l',
    Some "E, G, T" = Some (Str.join ", " l') /\
    StronglySorted Str.le l' /\
    Permutation l' (map Str.upper (Str.chars "get")) /\
    ("get" <> "" ->
     String.length (Str.join ", " l') = (3 * String.length "get" - 2)%nat).
Proof.
  apply (MethodsMore.methods_string_is_split "get" (PyStr "*") PyNone
           (MaxAgeInt 21600) true true
           (Policy "*" (Some "E, G, T") None (NumInt 21600) true true)).
  reflexivity.
Defined.

(** GET [/a] under [get_policy]. *)
Lemma configured_methods_never_ask_framework_witness :
  exists res st' tr,
    run route_a (wrapped_function get_policy tt) [] = (res, st', tr) /\
    ~ In TMakeDefaultOptionsResponse tr /\ ~ In THeadersGet tr.
Proof.
  eexists _, _, _. split; [reflexivity |].
  refine (configured_methods_never_ask_framework get_policy route_a tt []
            "GET" _ _ _ eq_refl _ eq_refl).
  right. discriminate.
Defined.

(** The view that raises, under [open_policy]. *)
Lemma view_exception_passes_through_witness :
  run failing_view (wrapped_function open_policy tt) [] =
  (Raise (ViewError "no such record"), [], [TRequestMethod; TCallView]).
Proof.
  apply (view_exception_passes_through open_policy failing_view tt []);
    [right; discriminate | reflexivity].
Defined.

(** An OPTIONS request under [manual_policy]: the view answers, and the
    headers are attached although [attach_to_all] is off. *)
Lemma options_always_attached_witness :
  exists r st' tr resp,
    run own_options (wrapped_function manual_policy tt) [] = (Ok r, st', tr) /\
    st' !! r = Some resp /\
    Headers.get (Response.headers resp) ACAO = Some "*" /\
    In TCallView tr.
Proof.
  destruct (options_always_attached manual_policy own_options tt []
              0%nat _ _ eq_refl eq_refl)
    as [(resp & Hresp & Horigin & _) Hview].
  destruct (Hview eq_refl) as [Hcalled _].
  eexists _, _, _, resp. split; [reflexivity |]. auto.
Defined.


(** GET under [open_policy] when the default response has no [Allow]. *)
Lemma missing_allow_raises_after_origin_witness :
  exists st' tr,
    run no_allow (wrapped_function open_policy tt) [] =
    (Raise KeyError, st', tr) /\
    st' !! 0%nat =
    Some (Response.set_header (Response.Make 200 "ok" []) ACAO "*") /\
    occurrences THeadersSet tr = 1%nat.
Proof.
  apply (missing_allow_raises_after_origin open_policy no_allow tt [] 0%nat
           [Response.Make 200 "ok" []] (Response.Make 200 "ok" []));
    try reflexivity. left. reflexivity.
Defined.

(** The preflight request for [/a] under [open_policy]. *)
Lemma automatic_options_builds_default_twice_witness :
  exists tr,
    run preflight (wrapped_function open_policy tt) [] =
    (Ok 0%nat,
     [attach open_policy "HEAD, OPTIONS, GET" (fw_default_options preflight);
      fw_default_options preflight], tr) /\
    occurrences TMakeDefaultOptionsResponse tr = 2%nat.
Proof.
  apply (automatic_options_builds_default_twice open_policy preflight tt []
           "HEAD, OPTIONS, GET"); reflexivity.
Defined.

(** The view with CORS headers of its own, under [open_policy]. *)
Lemma attached_headers_are_single_witness :
  header_count (Response.headers own_cors) ACAO = 2%nat /\
  exists r st' tr resp,
    run view_with_own_cors (wrapped_function open_policy tt) [] =
    (Ok r, st', tr) /\
    st' !! r = Some resp /\
    header_count (Response.headers resp) ACAO = 1%nat /\
    header_count (Response.headers resp) ACAM = 1%nat /\
    header_count (Response.headers resp) ACMA = 1%nat.
Proof.
  split; [reflexivity |].
  destruct (attached_headers_are_single open_policy view_with_own_cors tt []
              0%nat _ _ (or_introl eq_refl) eq_refl)
    as (resp & Hresp & H1 & H2 & H3 & _).
  eexists _, _, _, resp. split; [reflexivity |]. auto.
Defined.



(** [index] decorated under [preflight_policy], then under
    [open_policy]. *)
Lemma decorator_stacks_witness :
  exists w1 fs1 w2 fs2 wfn2,
    decorator preflight_policy 0%nat [index] = Ok (w1, fs1) /\
    decorator open_policy w1 fs1 = Ok (w2, fs2) /\
    fs2 !! w2 = Some wfn2 /\
    func_code wfn2 = WrappedFunction open_policy w1 /\
    func_name wfn2 = "index" /\
    closure_policy fs2 w1 = Some preflight_policy.
Proof.
  destruct (DecorationMore.decorator_stacks preflight_policy open_policy
              0%nat [index] index _ _ eq_refl eq_refl)
    as (w2 & fs2 & wfn2 & Hdec & Hw2 & Hcode & Hname & Hinner & _).
  eexists _, _, w2, fs2, wfn2. split; [reflexivity |]. auto 10.
Defined.

(** GET [/a] under [open_policy]: 21600 seconds. *)
Lemma max_age_integer_reads_back_witness :
  exists r st' tr resp v,
    run route_a (wrapped_function open_policy tt) [] = (Ok r, st', tr) /\
    st' !! r = Some resp /\
    Headers.get (Response.headers resp) ACMA = Some v /\
    Z.of_int <$> NilZero.int_of_string v = Some 21600.
Proof.
  destruct (max_age_integer_reads_back route_a open_policy tt [] 21600
              0%nat _ _ eq_refl (or_introl eq_refl) eq_refl)
    as (resp & v & Hresp & Hv & Hz).
  eexists _, _, _, resp, v. split; [reflexivity |]. auto.
Defined.

End MoreExamples.

Module StackedExamples.

Import App AppMore.

(** [@crossdomain(origin='http://a.example')] over
    [@crossdomain(origin='*', methods=['post', 'get'],
    headers=['x-requested-with'])], on GET [/a]. *)
Lemma stacked_outer_wins_inner_headers_stay_witness :
  exists r st' tr resp,
    run (decorated_view route_a
           (Policy "*" (Some "GET, POST") (Some "X-REQUESTED-WITH")
                   (NumInt 21600) true true))
        (wrapped_function
           (Policy "http://a.example" None None (NumInt 60) true true) tt) []
    = (Ok r, st', tr) /\
    st' !! r = Some resp /\
    Headers.get (Response.headers resp) ACAO = Some "http://a.example" /\
    Headers.get (Response.headers resp) ACAM = Some "HEAD, OPTIONS, GET" /\
    Headers.get (Response.headers resp) ACMA = Some "60" /\
    Headers.get (Response.headers resp) ACAH = Some "X-REQUESTED-WITH".
Proof.
  destruct (stacked_outer_wins_inner_headers_stay
              (Policy "http://a.example" None None (NumInt 60) true true)
              (Policy "*" (Some "GET, POST") (Some "X-REQUESTED-WITH")
                      (NumInt 21600) true true)
              route_a tt [] 0%nat _ _ "X-REQUESTED-WITH"
              eq_refl eq_refl ltac:(discriminate) eq_refl eq_refl eq_refl)
    as (resp & Hresp & H).
  eexists _, _, _, resp. split; [reflexivity |]. split; [exact Hresp |].
  exact H.
Defined.

End StackedExamples.
